(** * IemocapDataset: index construction, sample access and framing

    A shallow embedding of [IemocapDataset.py]: the annotation parser and
    index builder ([__init__]), the accessor ([__len__], [__getitem__]) and
    the framer ([collate_fn]), together with the few library routines they
    call (Python [str] methods, [posixpath.join], the pandas table
    constructor and [Series.map], a handful of torch tensor operations). *)

From Stdlib Require Import ZArith Lia List String Ascii Bool DecimalString.
From stdpp Require Import base gmap list strings.

Local Open Scope Z_scope.

(** ** Exceptions and the error monad *)

Inductive exn : Type :=
| IndexError   (* a string index out of range *)
| TypeError    (* an operation on a value of the wrong type *)
| KeyError     (* a missing dict key or table label *)
| ValueError   (* pandas: wrong number of columns *)
| OSError      (* a missing directory or file, a failed audio load *)
| UnicodeDecodeError (* a file whose bytes do not decode while it is read *)
| AttributeError (* [.shape] of a value that is not a tensor *)
| RuntimeError (* torch: a negative dimension, a shape mismatch *).

Inductive res (X : Type) : Type :=
| Ok (x : X)
| Raise (e : exn).
Arguments Ok {X} x.
Arguments Raise {X} e.

Definition res_bind {X Y} (m : res X) (f : X -> res Y) : res Y :=
  match m with
  | Ok x => f x
  | Raise e => Raise e
  end.

Notation "x <- m ;; k" := (res_bind m (fun x => k))
  (at level 100, m at next level, right associativity).

Definition is_ok {X} (m : res X) : bool :=
  match m with
  | Ok _ => true
  | Raise _ => false
  end.

Fixpoint res_mapM {X Y} (f : X -> res Y) (xs : list X) : res (list Y) :=
  match xs with
  | [] => Ok []
  | x :: xs' => y <- f x ;; ys <- res_mapM f xs' ;; Ok (y :: ys)
  end.

(** ** Python [str]

    A [string] stands for a Python [str] whose code points are below 256. *)

Module PyStr.

Definition startswith (s p : string) : bool := String.prefix p s.

(** [s.endswith(suf)]: some tail of [s] is [suf]. *)
Fixpoint endswith (s suf : string) : bool :=
  String.eqb s suf ||
  match s with
  | EmptyString => false
  | String _ s' => endswith s' suf
  end.

(** [str.isspace] on one code point below 256. *)
Definition isspace (c : ascii) : bool :=
  let n := nat_of_ascii c in
  ((9 <=? n) && (n <=? 13) || (28 <=? n) && (n <=? 32)
   || (n =? 133) || (n =? 160))%nat.

Fixpoint lstrip (s : string) : string :=
  match s with
  | EmptyString => EmptyString
  | String c s' => if isspace c then lstrip s' else s
  end.

Fixpoint rstrip (s : string) : string :=
  match s with
  | EmptyString => EmptyString
  | String c s' =>
      match rstrip s' with
      | EmptyString => if isspace c then EmptyString else String c EmptyString
      | r => String c r
      end
  end.

(** [s.strip()] *)
Definition strip (s : string) : string := rstrip (lstrip s).

(** [replace_go old new skip s]: the rest of the scan of [s.replace(old,
    new)] for a non-empty [old], the first [skip] characters of [s]
    belonging to an occurrence already replaced. *)
Fixpoint replace_go (old new : string) (skip : nat) (s : string) : string :=
  match s with
  | EmptyString => EmptyString
  | String c s' =>
      match skip with
      | S k => replace_go old new k s'
      | O =>
          if String.prefix old s
          then new +:+ replace_go old new (String.length old - 1) s'
          else String c (replace_go old new 0 s')
      end
  end.

Fixpoint intersperse (new s : string) : string :=
  match s with
  | EmptyString => new
  | String c s' => new +:+ String c (intersperse new s')
  end.

(** [s.replace(old, new)]: every non-overlapping occurrence, left to
    right; an empty [old] matches between any two characters. *)
Definition replace (old new s : string) : string :=
  match old with
  | EmptyString => intersperse new s
  | _ => replace_go old new 0 s
  end.

(** [split_go sep skip s]: the fields of the rest of the scan, the first
    one being the field in progress. *)
Fixpoint split_go (sep : string) (skip : nat) (s : string) : list string :=
  match s with
  | EmptyString => [EmptyString]
  | String c s' =>
      match skip with
      | S k => split_go sep k s'
      | O =>
          if String.prefix sep s
          then EmptyString :: split_go sep (String.length sep - 1) s'
          else match split_go sep 0 s' with
               | f :: fs => String c f :: fs
               | [] => [String c EmptyString]
               end
      end
  end.

(** [s.split(sep)]; an empty separator is a [ValueError]. *)
Definition split (sep s : string) : res (list string) :=
  match sep with
  | EmptyString => Raise ValueError
  | _ => Ok (split_go sep 0 s)
  end.

(** [s[i]] for [0 <= i]. *)
Definition getitem (s : string) (i : nat) : res ascii :=
  match String.get i s with
  | Some c => Ok c
  | None => Raise IndexError
  end.

(** [s[:-k]] for [0 < k]: never fails, empty when [s] has at most [k]
    characters. *)
Definition drop_last (k : nat) (s : string) : string :=
  substring 0 (String.length s - k) s.

(** [str(n)] for a natural number. *)
Definition str_of_nat (n : nat) : string :=
  NilEmpty.string_of_uint (Nat.to_uint n).

End PyStr.

(** ** [os.path.join] (posixpath) *)

Fixpoint join_go (path : string) (ps : list string) : string :=
  match ps with
  | [] => path
  | b :: ps' =>
      join_go
        (if PyStr.startswith b "/" then b
         else if String.eqb path "" || PyStr.endswith path "/"
              then path +:+ b
              else path +:+ "/" +:+ b)
        ps'
  end.

Definition os_path_join (a : string) (ps : list string) : string :=
  join_go a ps.

(** ** Numeric text

    The text that Python's [float] accepts (and numpy with it, when it casts
    an object column to [float32]): optional sign, then [inf], [infinity] or
    [nan] in any case, or a decimal number with an optional exponent, digits
    possibly grouped by single underscores; surrounding blanks are
    ignored. *)

Module FloatText.

Definition is_digit (c : ascii) : bool :=
  let n := nat_of_ascii c in ((48 <=? n) && (n <=? 57))%nat.

(** The blanks that [float] ignores around a number: the C whitespace
    (codes 9 to 13 and 32), and the whitespace above 127, which it first
    turns into spaces. The separators 28 to 31, which [str.strip]
    removes, are not among them. *)
Definition is_blank (c : ascii) : bool :=
  let n := nat_of_ascii c in
  ((9 <=? n) && (n <=? 13) || (n =? 32) || (n =? 133) || (n =? 160))%nat.

Fixpoint lstrip (s : string) : string :=
  match s with
  | EmptyString => EmptyString
  | String c s' => if is_blank c then lstrip s' else s
  end.

Fixpoint rstrip (s : string) : string :=
  match s with
  | EmptyString => EmptyString
  | String c s' =>
      match rstrip s' with
      | EmptyString => if is_blank c then EmptyString else String c EmptyString
      | r => String c r
      end
  end.

Definition strip (s : string) : string := rstrip (lstrip s).

Definition lower (c : ascii) : ascii :=
  let n := nat_of_ascii c in
  if ((65 <=? n) && (n <=? 90))%nat then ascii_of_nat (n + 32) else c.

Fixpoint lower_string (s : string) : string :=
  match s with
  | EmptyString => EmptyString
  | String c s' => String (lower c) (lower_string s')
  end.

(** The rest of the text after the longest digit group that continues a
    digit already read. *)
Fixpoint digitpart_tail (s : string) : string :=
  match s with
  | EmptyString => EmptyString
  | String c s' =>
      if is_digit c then digitpart_tail s'
      else if Ascii.eqb c "_" then
        match s' with
        | String d s'' => if is_digit d then digitpart_tail s'' else s
        | EmptyString => s
        end
      else s
  end.

Definition digitpart (s : string) : option string :=
  match s with
  | String c s' => if is_digit c then Some (digitpart_tail s') else None
  | EmptyString => None
  end.

Definition skip_sign (s : string) : string :=
  match s with
  | String c s' => if Ascii.eqb c "+" || Ascii.eqb c "-" then s' else s
  | EmptyString => s
  end.

Definition number (s : string) : option string :=
  match digitpart s with
  | Some r =>
      match r with
      | String c r' =>
          if Ascii.eqb c "."
          then match digitpart r' with Some r'' => Some r'' | None => Some r' end
          else Some r
      | EmptyString => Some r
      end
  | None =>
      match s with
      | String c r => if Ascii.eqb c "." then digitpart r else None
      | EmptyString => None
      end
  end.

Definition exponent (s : string) : option string :=
  match s with
  | String c r =>
      if Ascii.eqb (lower c) "e" then digitpart (skip_sign r) else Some s
  | EmptyString => Some s
  end.

Definition is_float (s : string) : bool :=
  let u := skip_sign (strip s) in
  let l := lower_string u in
  if String.eqb l "inf" || String.eqb l "infinity" || String.eqb l "nan"
  then true
  else match number u with
       | Some r =>
           match exponent r with
           | Some EmptyString => true
           | _ => false
           end
       | None => false
       end.

End FloatText.

(** ** The pandas table

    A [float32] entry is kept symbolically: by the text it was parsed from,
    by the integer it was converted from, or as NaN. No arithmetic is done
    on these values anywhere in the program. *)

Inductive f32 : Type :=
| F32_text (s : string)
| F32_int (z : Z)
| F32_nan.

Inductive Cell : Type :=
| CStr (s : string)   (* a Python str *)
| CNone               (* None: the filler of a short row *)
| CNum (x : f32)      (* a numpy float32 *).

(** An entry of the object matrix: a field, or None where the row has
    none. *)
Definition cell_of (o : option string) : Cell :=
  match o with
  | Some s => CStr s
  | None => CNone
  end.

(** The table of [__init__]: a range index [0 .. index-1] and the seven
    columns named in the constructor call. *)
Record DataFrame : Type := mkDataFrame {
  index : nat;
  col_start : list Cell;
  col_end : list Cell;
  col_file : list Cell;
  col_emotion : list Cell;
  col_activation : list Cell;
  col_valence : list Cell;
  col_dominance : list Cell
}.

(** [lib.to_object_array]: the rows as an object matrix as wide as the
    longest row, shorter rows filled with None. *)
Definition row_width (data : list (list string)) : nat :=
  fold_right (fun row k => Nat.max (List.length row) k) 0%nat data.

Definition to_object_array (data : list (list string)) : list (list Cell) :=
  let k := row_width data in
  map (fun row => map CStr row ++ repeat CNone (k - List.length row)) data.

Definition column (j : nat) (rows : list (list Cell)) : list Cell :=
  map (fun row => nth j row CNone) rows.

(** The cast of one column to [dtype=np.float32] (pandas 1.x, where a
    column that does not convert is silently left as objects): None becomes
    NaN, and the column is cast only when every string in it is numeric
    text. *)
Definition castable (c : Cell) : bool :=
  match c with
  | CStr s => FloatText.is_float s
  | CNone => true
  | CNum _ => true
  end.

Definition cast_cell (c : Cell) : Cell :=
  match c with
  | CStr s => CNum (F32_text s)
  | CNone => CNum F32_nan
  | CNum x => CNum x
  end.

Definition cast_column (col : list Cell) : list Cell :=
  if forallb castable col then map cast_cell col else col.

(** Column [j] of the table made from the rows [data]. *)
Definition table_column (data : list (list string)) (j : nat) : list Cell :=
  cast_column (column j (to_object_array data)).

(** [pd.DataFrame(data, columns=[... seven names ...], dtype=np.float32)]
    for a list of rows: no rows make an empty table; otherwise the object
    matrix must be seven columns wide. *)
Definition pd_DataFrame (data : list (list string)) : res DataFrame :=
  match data with
  | [] => Ok (mkDataFrame 0 [] [] [] [] [] [] [])
  | _ =>
      if (row_width data =? 7)%nat then
        Ok (mkDataFrame (List.length data)
              (table_column data 0) (table_column data 1)
              (table_column data 2) (table_column data 3)
              (table_column data 4) (table_column data 5)
              (table_column data 6))
      else Raise ValueError
  end.

(** [df.loc[idx, col]] on a range index: a label lookup, so an integer
    outside [0 .. index-1] is a [KeyError]. *)
Definition loc (df : DataFrame) (idx : Z) (col : DataFrame -> list Cell)
  : res Cell :=
  if (0 <=? idx) && (idx <? Z.of_nat (index df)) then
    match col df !! Z.to_nat idx with
    | Some c => Ok c
    | None => Raise KeyError
    end
  else Raise KeyError.

(** ** The file system as [__init__] reads it *)

Record FileSystem : Type := mkFileSystem {
  (** [os.listdir(path)]; None when the directory cannot be listed. *)
  os_listdir : string -> option (list string);
  (** [open(path, 'r')] and the iteration over the file: the lines it
      yields, each with its line terminator, or the exception raised
      (OSError when the file cannot be opened, UnicodeDecodeError when
      its bytes do not decode). *)
  open_lines : string -> res (list string)
}.

(** ** IemocapDataset *)

Definition _ext_audio : string := ".wav".

Definition _emotions : list (string * Z) :=
  [("ang", 1); ("hap", 2); ("exc", 3); ("sad", 4); ("fru", 5);
   ("fea", 6); ("sur", 7); ("neu", 8); ("xxx", 9)]%string.

Fixpoint dict_get {V} (d : list (string * V)) (k : string) : option V :=
  match d with
  | [] => None
  | (k', v) :: d' => if String.eqb k' k then Some v else dict_get d' k
  end.

Definition TAB : string := String (ascii_of_nat 9) EmptyString.

(** Lines 39-44: the fields of one annotation line. *)
Definition parse_line (line : string) : res (list string) :=
  PyStr.split TAB
    (PyStr.replace ", " TAB
       (PyStr.replace " - " TAB
          (PyStr.replace "]" ""
             (PyStr.replace "[" "" (PyStr.strip line))))).

(** Lines 39-45: the list comprehension over the lines of one file. *)
Definition utterance_rows (lines : list string) : res (list (list string)) :=
  res_mapM parse_line
    (List.filter (fun line => PyStr.startswith line "[") lines).

(** Lines 34-45: the loop over the evaluation files of one session. *)
Fixpoint read_files (fs : FileSystem) (path : string) (files : list string)
  : res (list (list string)) :=
  match files with
  | [] => Ok []
  | f :: files' =>
      lines <- open_lines fs (os_path_join path [f]) ;;
      rows <- utterance_rows lines ;;
      more <- read_files fs path files' ;;
      Ok (rows ++ more)
  end.

(** Lines 28-31: the evaluation files of session [i]. *)
Definition session_path (root : string) (i : nat) : string :=
  os_path_join root
    ["Session" +:+ PyStr.str_of_nat i; "dialog"; "EmoEvaluation"]%string.

Definition session_files (fs : FileSystem) (root : string) (i : nat)
  : res (list string) :=
  match os_listdir fs (session_path root i) with
  | None => Raise OSError
  | Some names => Ok (List.filter (fun f => PyStr.endswith f ".txt") names)
  end.

(** Lines 25-45: the loop over the sessions. *)
Fixpoint read_sessions (fs : FileSystem) (root : string) (sessions : list nat)
  : res (list (list string)) :=
  match sessions with
  | [] => Ok []
  | i :: sessions' =>
      files <- session_files fs root i ;;
      rows <- read_files fs (session_path root i) files ;;
      more <- read_sessions fs root sessions' ;;
      Ok (rows ++ more)
  end.

(** Line 51: [Series.map] with the dict [_emotions], then
    [astype(np.float32)]: a value that is not a key of the dict maps to
    NaN. *)
Definition map_emotion (c : Cell) : Cell :=
  match c with
  | CStr s =>
      match dict_get _emotions s with
      | Some code => CNum (F32_int code)
      | None => CNum F32_nan
      end
  | _ => CNum F32_nan
  end.

(** Line 54: the body of the list comprehension, on one entry of the
    'file' column. *)
Definition audio_path (file_id : string) : res string :=
  c <- PyStr.getitem file_id 4 ;;
  Ok (os_path_join ("Session" +:+ String c EmptyString)
        ["sentences"; "wav"; PyStr.drop_last 5 file_id;
         file_id +:+ _ext_audio]%string).

Definition audio_path_cell (c : Cell) : res Cell :=
  match c with
  | CStr file_id => p <- audio_path file_id ;; Ok (CStr p)
  | _ => Raise TypeError
  end.

Record IemocapDataset : Type := mkIemocapDataset {
  root : string;
  df : DataFrame
}.

Definition set_emotion (d : DataFrame) (col : list Cell) : DataFrame :=
  mkDataFrame (index d) (col_start d) (col_end d) (col_file d) col
    (col_activation d) (col_valence d) (col_dominance d).

Definition set_file (d : DataFrame) (col : list Cell) : DataFrame :=
  mkDataFrame (index d) (col_start d) (col_end d) col (col_emotion d)
    (col_activation d) (col_valence d) (col_dominance d).

(** Lines 47-54: the table of the collected rows. *)
Definition index_of_rows (root : string) (data : list (list string))
  : res IemocapDataset :=
  d <- pd_DataFrame data ;;
  let d := set_emotion d (map map_emotion (col_emotion d)) in
  paths <- res_mapM audio_path_cell (col_file d) ;;
  Ok (mkIemocapDataset root (set_file d paths)).

Definition __init__ (fs : FileSystem) (root : string) : res IemocapDataset :=
  data <- read_sessions fs root (seq 1 5) ;;
  index_of_rows root data.

Definition __len__ (self : IemocapDataset) : Z := Z.of_nat (index (df self)).

(** ** Tensors and the framer

    The samples of a waveform are kept abstract: the framer only copies
    them and pads with the zero sample. *)

Section Torch.

Context {A : Type} (zero : A).

(** A 2-D tensor of shape [(length rows, shape1)]: channels by samples. *)
Record Tensor2 : Type := mkTensor2 {
  shape1 : nat;
  rows : list (list A)
}.

Definition wf_tensor2 (t : Tensor2) : Prop :=
  Forall (fun r => List.length r = shape1 t) (rows t).

(** A 3-D tensor of shape [(n, n_channels, frame_length)]: a list of
    frames, each a list of channels. *)
Local Abbreviation Tensor3 := (list (list (list A))).

(** The dict that [__getitem__] returns and [collate_fn] reads. *)
Record Sample : Type := mkSample {
  path : string;
  waveform : Tensor2;
  sample_rate : Z;
  emotion : Cell;
  activation : Cell;
  valence : Cell;
  dominance : Cell
}.

(** *** Lines 59-80: the accessor *)

Section Accessor.

(** [torchaudio.load]: the external audio loader. *)
Variable torchaudio_load : string -> res (Tensor2 * Z).

(** [idx] is a Python int (lines 60-61 only turn a tensor index into
    one). *)
Definition __getitem__ (self : IemocapDataset) (idx : Z) : res Sample :=
  f <- loc (df self) idx col_file ;;
  audio_name <- match f with
                | CStr rel => Ok (os_path_join (root self) [rel])
                | _ => Raise TypeError
                end ;;
  loaded <- torchaudio_load audio_name ;;
  emo <- loc (df self) idx col_emotion ;;
  act <- loc (df self) idx col_activation ;;
  val <- loc (df self) idx col_valence ;;
  dom <- loc (df self) idx col_dominance ;;
  Ok (mkSample audio_name (fst loaded) (snd loaded) emo act val dom).

End Accessor.

(** *** Lines 82-106: the framer *)

Definition sample_rate_hz : Z := 16000.
Definition n_channels : nat := 1.
(** [np.int(0.025 * 16000)] and [np.int(0.01 * 16000)]: both products
    are exact in double precision. *)
Definition frame_length : Z := 400.
Definition step_length : Z := 160.

(** The ceiling of [a / b] for [0 < b]. The source takes [np.ceil] of the
    double-precision quotient, which has this ceiling whenever the
    quotient is below 2^45 in magnitude, so for every tensor that fits in
    memory. *)
Definition ceil_div (a b : Z) : Z := - ((- a) / b).

(** Line 97 *)
Definition n_frames (L : Z) : Z :=
  ceil_div (L - frame_length) step_length + 1.

(** Line 98 *)
Definition padding_length (L n : Z) : Z :=
  if L <? frame_length then frame_length
  else frame_length + (n - 1) * step_length - L.

(** [F.pad(t, (0, p))]: [p] zeros appended to every row; a negative [p]
    crops instead, and cannot crop more than there is. *)
Definition F_pad (t : Tensor2) (p : Z) : res Tensor2 :=
  if 0 <=? p then
    Ok (mkTensor2 (shape1 t + Z.to_nat p)
          (map (fun r => r ++ repeat zero (Z.to_nat p)) (rows t)))
  else if Z.of_nat (shape1 t) + p <? 0 then Raise RuntimeError
  else
    Ok (mkTensor2 (shape1 t - Z.to_nat (- p))
          (map (firstn (shape1 t - Z.to_nat (- p))) (rows t))).

(** [torch.zeros(n, n_channels, frame_length)] *)
Definition torch_zeros (n : Z) : res Tensor3 :=
  if n <? 0 then Raise RuntimeError
  else Ok (repeat (repeat (repeat zero (Z.to_nat frame_length)) n_channels)
             (Z.to_nat n)).

(** [t[:, a:b]] for [0 <= a <= b]: the bounds are clamped to the width. *)
Definition slice_cols (t : Tensor2) (a b : nat) : Tensor2 :=
  mkTensor2 (Nat.min b (shape1 t) - Nat.min a (shape1 t))
    (map (fun r => firstn (b - a) (skipn a r)) (rows t)).

(** [item_frames[i] = src]: [src] is copied into frame [i], of shape
    [(n_channels, frame_length)], after broadcasting; a source with
    another number of channels, or with a width that is neither
    [frame_length] nor 1, does not broadcast. *)
Definition setitem (item_frames : Tensor3) (i : nat) (src : Tensor2)
  : res Tensor3 :=
  if (i <? List.length item_frames)%nat then
    match rows src with
    | [r] =>
        if (shape1 src =? Z.to_nat frame_length)%nat
        then Ok (<[i := [r]]> item_frames)
        else if (shape1 src =? 1)%nat
        then Ok (<[i := [flat_map (fun x => repeat x (Z.to_nat frame_length)) r]]>
                   item_frames)
        else Raise RuntimeError
    | _ => Raise RuntimeError
    end
  else Raise IndexError.

(** Lines 102-103: the loop over [range(n_frames)]. *)
Fixpoint fill_frames (padded_waveform : Tensor2) (item_frames : Tensor3)
  (range : list nat) : res Tensor3 :=
  match range with
  | [] => Ok item_frames
  | i :: range' =>
      let a := (i * Z.to_nat step_length)%nat in
      item_frames' <-
        setitem item_frames i
          (slice_cols padded_waveform a (a + Z.to_nat frame_length)) ;;
      fill_frames padded_waveform item_frames' range'
  end.

(** Lines 95-103: the frames of one item. *)
Definition frame_item (w : Tensor2) : res Tensor3 :=
  let original_waveform_length := Z.of_nat (shape1 w) in
  let n := n_frames original_waveform_length in
  let p := padding_length original_waveform_length n in
  padded_waveform <- F_pad w p ;;
  item_frames <- torch_zeros n ;;
  fill_frames padded_waveform item_frames (seq 0 (Z.to_nat n)).

(** Lines 94-104: the loop over the batch, [frames] being the frames
    collected so far. *)
Fixpoint collate_loop (frames : Tensor3) (batch : list Sample)
  : res Tensor3 :=
  match batch with
  | [] => Ok frames
  | item :: batch' =>
      item_frames <- frame_item (waveform item) ;;
      collate_loop (frames ++ item_frames) batch'
  end.

Definition collate_fn (batch : list Sample) : res Tensor3 :=
  collate_loop [] batch.

(** Frame [i] of a padded row, as the specification words it: the
    [frame_length] samples from [i * step_length] on. *)
Definition frame_of (row : list A) (i : nat) : list (list A) :=
  [take (Z.to_nat frame_length) (drop (i * Z.to_nat step_length) row)].

(** *** The framer on the object store

    The same lines 82-106 with the Python objects in a store: the batch
    is a list of addresses of dicts, a dict maps its keys to values, a
    tensor value is the address of the tensor object. Every tensor
    object owns its elements; the view [padded_waveform[:, a:b]] lives
    only within the assignment that copies it. *)

Definition addr : Type := nat.

Inductive val : Type :=
| VRef (l : addr)
| VStr (s : string)
| VInt (z : Z)
| VCell (c : Cell).

Inductive obj : Type :=
| ODict (d : gmap string val)
| OTensor2 (t : Tensor2)
| OTensor3 (t : Tensor3).

(** A computation on the store: it ends with a value or an exception,
    and with the store as it left it. *)
Definition St (X : Type) : Type := gmap addr obj -> res X * gmap addr obj.

Definition st_ret {X} (x : X) : St X := fun h => (Ok x, h).

Definition st_lift {X} (r : res X) : St X := fun h => (r, h).

Definition st_bind {X Y} (m : St X) (f : X -> St Y) : St Y :=
  fun h =>
    match m h with
    | (Ok x, h') => f x h'
    | (Raise e, h') => (Raise e, h')
    end.

Notation "x <~ m ;; k" := (st_bind m (fun x => k))
  (at level 100, m at next level, right associativity).

(** A new object at an address that was not in use. *)
Definition alloc (o : obj) : St addr :=
  fun h => let l := fresh (dom h) in (Ok l, <[l := o]> h).

Definition store (l : addr) (o : obj) : St unit :=
  fun h => (Ok tt, <[l := o]> h).

(** [item[key]] *)
Definition dict_getitem (item : addr) (key : string) : St val :=
  fun h =>
    match h !! item with
    | Some (ODict d) =>
        match d !! key with
        | Some v => (Ok v, h)
        | None => (Raise KeyError, h)
        end
    | _ => (Raise TypeError, h)
    end.

Definition tensor2_at (l : addr) : St Tensor2 :=
  fun h =>
    match h !! l with
    | Some (OTensor2 t) => (Ok t, h)
    | _ => (Raise AttributeError, h)
    end.

Definition tensor3_at (l : addr) : St Tensor3 :=
  fun h =>
    match h !! l with
    | Some (OTensor3 t) => (Ok t, h)
    | _ => (Raise AttributeError, h)
    end.

Definition tensor2_of (v : val) : St Tensor2 :=
  match v with
  | VRef l => tensor2_at l
  | _ => st_lift (Raise AttributeError)
  end.

(** Lines 102-103: every round reads the padded waveform and writes
    frame [i] of the tensor at [item_frames]. *)
Fixpoint fill_frames_st (padded_waveform item_frames : addr)
  (range : list nat) : St unit :=
  match range with
  | [] => st_ret tt
  | i :: range' =>
      let a := (i * Z.to_nat step_length)%nat in
      t <~ tensor2_at padded_waveform ;;
      fr <~ tensor3_at item_frames ;;
      fr' <~ st_lift (setitem fr i
                        (slice_cols t a (a + Z.to_nat frame_length))) ;;
      _ <~ store item_frames (OTensor3 fr') ;;
      fill_frames_st padded_waveform item_frames range'
  end.

(** Lines 95-103. The padded waveform is a tensor of its own here; it is
    only ever read, so nothing depends on whether a pad of width 0 copies. *)
Definition frame_item_st (item : addr) : St addr :=
  v <~ dict_getitem item "waveform" ;;
  w <~ tensor2_of v ;;
  let original_waveform_length := Z.of_nat (shape1 w) in
  let n := n_frames original_waveform_length in
  let p := padding_length original_waveform_length n in
  pw <~ st_lift (F_pad w p) ;;
  padded_waveform <~ alloc (OTensor2 pw) ;;
  z <~ st_lift (torch_zeros n) ;;
  item_frames <~ alloc (OTensor3 z) ;;
  _ <~ fill_frames_st padded_waveform item_frames (seq 0 (Z.to_nat n)) ;;
  st_ret item_frames.

(** [torch.cat((a, b), 0)]: a new tensor. *)
Definition torch_cat (a b : addr) : St addr :=
  x <~ tensor3_at a ;;
  y <~ tensor3_at b ;;
  alloc (OTensor3 (x ++ y)).

(** Lines 94-104 *)
Fixpoint collate_loop_st (frames : addr) (batch : list addr) : St addr :=
  match batch with
  | [] => st_ret frames
  | item :: batch' =>
      item_frames <~ frame_item_st item ;;
      frames' <~ torch_cat frames item_frames ;;
      collate_loop_st frames' batch'
  end.

Definition collate_fn_st (batch : list addr) : St addr :=
  z <~ st_lift (torch_zeros 0) ;;
  frames <~ alloc (OTensor3 z) ;;
  collate_loop_st frames batch.

(** The dict at [item] is the sample [s]: its seven keys hold the fields
    of [s], the waveform through the address of a 2-D tensor. *)
Definition sample_at (h : gmap addr obj) (item : addr) (s : Sample) : Prop :=
  exists (d : gmap string val) (w : addr),
    h !! item = Some (ODict d) /\
    d !! "path"%string = Some (VStr (path s)) /\
    d !! "waveform"%string = Some (VRef w) /\
    h !! w = Some (OTensor2 (waveform s)) /\
    d !! "sample_rate"%string = Some (VInt (sample_rate s)) /\
    d !! "emotion"%string = Some (VCell (emotion s)) /\
    d !! "activation"%string = Some (VCell (activation s)) /\
    d !! "valence"%string = Some (VCell (valence s)) /\
    d !! "dominance"%string = Some (VCell (dominance s)).

(** What a call of the framer hands back: the frames of the tensor it
    returns, or the exception it raises. *)
Definition returned (out : res addr * gmap addr obj) : res Tensor3 :=
  match out with
  | (Ok l, h) =>
      match h !! l with
      | Some (OTensor3 fr) => Ok fr
      | _ => Raise AttributeError
      end
  | (Raise e, _) => Raise e
  end.

(** What a run of the framer that started in the store [h] must satisfy
    to implement the result [pure] on values: the objects of [h] are
    untouched, and the frames are in a tensor that was not in [h]. *)
Definition implements (h : gmap addr obj) (pure : res Tensor3)
  (out : res addr * gmap addr obj) : Prop :=
  h ⊆ out.2 /\
  match pure with
  | Ok fr => exists l, out.1 = Ok l /\ h !! l = None
                       /\ out.2 !! l = Some (OTensor3 fr)
  | Raise e => out.1 = Raise e
  end.

End Torch.

Abbreviation Tensor3 A := (list (list (list A))).


(** ** The corpus as the specification describes it

    The definitions below follow the specification's words, not the code:
    they are what the code is compared with. *)

(** The evaluation text files of session [i]: the entries of its
    EmoEvaluation directory whose name ends in [.txt]. *)
Definition evaluation_files (fs : FileSystem) (root : string) (i : nat)
  : list string :=
  match os_listdir fs (session_path root i) with
  | Some names => List.filter (fun f => PyStr.endswith f ".txt") names
  | None => []
  end.

(** The lines of the file [f] of the directory [path]. *)
Definition file_lines (fs : FileSystem) (path f : string) : list string :=
  match open_lines fs (os_path_join path [f]) with
  | Ok lines => lines
  | Raise _ => []
  end.

(** All lines of all evaluation text files of the 5 sessions, in order. *)
Definition evaluation_lines (fs : FileSystem) (root : string) : list string :=
  flat_map
    (fun i =>
       flat_map (file_lines fs (session_path root i))
         (evaluation_files fs root i))
    (seq 1 5).

(** The lines beginning with an opening bracket. *)
Definition bracketed_lines (fs : FileSystem) (root : string) : list string :=
  List.filter (fun line => PyStr.startswith line "[")
    (evaluation_lines fs root).

(** The fields of a selected line, as lines 39-44 compute them. *)
Definition fields (line : string) : list string :=
  PyStr.split_go TAB 0
    (PyStr.replace ", " TAB
       (PyStr.replace " - " TAB
          (PyStr.replace "]" ""
             (PyStr.replace "[" "" (PyStr.strip line))))).

(** The relative audio path of the specification:
    [Session<N>/sentences/wav/<utterance_group>/<file_id>.wav]. *)
Definition layout_path (N : ascii) (utterance_group file_id : string) : string :=
  "Session" +:+ String N EmptyString +:+ "/sentences/wav/" +:+ utterance_group
  +:+ "/" +:+ file_id +:+ ".wav".

(** The emotion code of a row: the enumeration's code of its fourth field,
    NaN when the field is missing or is not in the enumeration. *)
Definition emotion_code (row : list string) : Cell :=
  match row !! 3%nat with
  | Some s =>
      match dict_get _emotions s with
      | Some code => CNum (F32_int code)
      | None => CNum F32_nan
      end
  | None => CNum F32_nan
  end.

(** ** A small corpus *)

Definition NL : string := String (ascii_of_nat 10) EmptyString.

(** An annotation line in the corpus format:
    [[start - end] TAB file_id TAB [emotion] TAB [act, val, dom]]. *)
Definition annotation (t0 t1 file_id emo act val dom : string) : string :=
  "[" +:+ t0 +:+ " - " +:+ t1 +:+ "]" +:+ TAB +:+ file_id +:+ TAB
  +:+ "[" +:+ emo +:+ "]" +:+ TAB
  +:+ "[" +:+ act +:+ ", " +:+ val +:+ ", " +:+ dom +:+ "]" +:+ NL.

(** A corpus with one evaluation file, in session 1. *)
Definition corpus_of (root : string) (lines : list string) : FileSystem :=
  mkFileSystem
    (fun p =>
       if String.eqb p (session_path root 1)
       then Some ["Ses01F_impro01.txt"; "Attribute"; "Categorical"]%string
       else Some [])
    (fun p =>
       if String.eqb p (session_path root 1 +:+ "/Ses01F_impro01.txt")
       then Ok lines
       else Raise OSError).

Definition header_line : string :=
  "% [START_TIME - END_TIME] TURN_NAME EMOTION [V, A, D]" +:+ NL.

Definition demo_lines : list string :=
  [header_line; NL;
   annotation "6.2901" "8.2357" "Ses01F_impro01_F000" "neu"
     "2.5000" "2.5000" "2.5000";
   "C-E2:" +:+ TAB +:+ "Neutral;" +:+ TAB +:+ "()" +:+ NL;
   annotation "10.0100" "11.3925" "Ses01F_impro01_F001" "xxx"
     "2.5000" "3.0000" "2.5000";
   annotation "14.8872" "18.0175" "Ses01F_impro01_F002" "ang"
     "4.0000" "2.0000" "3.5000"]%string.

Definition demo_fs : FileSystem := corpus_of "IEMOCAP" demo_lines.

(** The same file with a label outside the enumeration. *)
Definition unknown_label_fs : FileSystem :=
  corpus_of "IEMOCAP"
    [header_line;
     annotation "6.2901" "8.2357" "Ses01F_impro01_F000" "foo"
       "2.5000" "2.5000" "2.5000"]%string.

(** A file whose second record stops after the emotion field. *)
Definition short_line_fs : FileSystem :=
  corpus_of "IEMOCAP"
    [annotation "6.2901" "8.2357" "Ses01F_impro01_F000" "neu"
       "2.5000" "2.5000" "2.5000";
     "[10.0100 - 11.3925]" +:+ TAB +:+ "Ses01F_impro01_F001" +:+ TAB
     +:+ "[xxx]" +:+ NL]%string.

(** A file whose second line has only two fields. *)
Definition two_field_fs : FileSystem :=
  corpus_of "IEMOCAP"
    [annotation "6.2901" "8.2357" "Ses01F_impro01_F000" "neu"
       "2.5000" "2.5000" "2.5000";
     "[10.0100 - 11.3925]" +:+ NL]%string.

(** Waveforms and samples with integer samples. *)
Definition mono_waveform (row : list Z) : Tensor2 :=
  mkTensor2 (List.length row) [row].

Definition sample_of (w : @Tensor2 Z) : Sample :=
  mkSample "IEMOCAP/Session1/sentences/wav/Ses01F_impro01/Ses01F_impro01_F000.wav"
    w 16000 (CNum (F32_int 8)) (CNum (F32_text "2.5000"))
    (CNum (F32_text "2.5000")) (CNum (F32_text "2.5000")).

Definition demo_load (p : string) : res (@Tensor2 Z * Z) :=
  if String.eqb p
       "IEMOCAP/Session1/sentences/wav/Ses01F_impro01/Ses01F_impro01_F001.wav"
  then Ok (mono_waveform [3; 1; 4; 1; 5], 16000)
  else Raise OSError.

(** A store with one sample dict (at address 0) whose waveform (at
    address 1) has 561 samples. *)
Definition dict_of (s : @Sample Z) (w : addr) : gmap string (val) :=
  <["path"%string := VStr (path s)]>
    (<["waveform"%string := VRef w]>
       (<["sample_rate"%string := VInt (sample_rate s)]>
          (<["emotion"%string := VCell (emotion s)]>
             (<["activation"%string := VCell (activation s)]>
                (<["valence"%string := VCell (valence s)]>
                   (<["dominance"%string := VCell (dominance s)]> ∅)))))).

Definition demo_sample : @Sample Z :=
  sample_of (mono_waveform (map Z.of_nat (seq 0 561))).

Definition demo_store : gmap addr (@obj Z) :=
  <[0%nat := ODict (dict_of demo_sample 1%nat)]>
    (<[1%nat := OTensor2 (waveform demo_sample)]> ∅).

(** ** More vocabulary for the properties

    Like the corpus definitions above, these follow what the properties
    say, not the code. *)

(** [lacks c s]: the character [c] does not occur in [s]. *)
Fixpoint lacks (c : ascii) (s : string) : bool :=
  match s with
  | EmptyString => true
  | String x s' => negb (Ascii.eqb x c) && lacks c s'
  end.

(** A field that none of the delimiters of lines 40-44 can touch. *)
Definition clean_field (s : string) : bool :=
  lacks "[" s && lacks "]" s && lacks (ascii_of_nat 9) s
  && lacks " " s && lacks "," s.





(** Column [j] of a table, counted from 0 in the order of the constructor
    call. *)
Definition nth_column (d : DataFrame) (j : nat) : list Cell :=
  match j with
  | 0%nat => col_start d
  | 1%nat => col_end d
  | 2%nat => col_file d
  | 3%nat => col_emotion d
  | 4%nat => col_activation d
  | 5%nat => col_valence d
  | 6%nat => col_dominance d
  | _ => []
  end.

(** A row of 3 to 7 fields whose file field has a character at index 4
    and is not numeric text. *)
Definition acceptable_row (row : list string) : bool :=
  (3 <=? List.length row)%nat && (List.length row <=? 7)%nat &&
  match row !! 2%nat with
  | Some file_id =>
      (5 <=? String.length file_id)%nat && negb (FloatText.is_float file_id)
  | None => false
  end.

(** A row of 7 fields whose file field has a character at index 4 and is
    not numeric text. *)
Definition well_formed_row (row : list string) : bool :=
  (List.length row =? 7)%nat &&
  match row !! 2%nat with
  | Some file_id =>
      (5 <=? String.length file_id)%nat && negb (FloatText.is_float file_id)
  | None => false
  end.

(** A frame of the shape [(1, 400)]. *)
Definition frame_shape {A : Type} (frame : list (list A)) : Prop :=
  exists r, frame = [r] /\ List.length r = 400%nat.

(** The signal that overlapping frames came from: the first 160 samples
    of every frame but the last, then the last frame. *)
Fixpoint overlap_join {A : Type} (frames : Tensor3 A) : list A :=
  match frames with
  | [] => []
  | [f] => concat f
  | f :: rest => take 160 (concat f) ++ overlap_join rest
  end.

(** A single-channel sample of at least [frame_length] samples. *)
Definition long_mono {A : Type} (s : @Sample A) : Prop :=
  exists row, rows (waveform s) = [row]
              /\ List.length row = shape1 (waveform s)
              /\ (400 <= shape1 (waveform s))%nat.

(** The waveform of a sample padded as on lines 98-99, and the frames cut
    from it every [step_length] samples. *)
Definition padded_row {A : Type} (zero : A) (s : @Sample A) : list A :=
  let L := Z.of_nat (shape1 (waveform s)) in
  concat (rows (waveform s))
  ++ repeat zero (Z.to_nat (padding_length L (n_frames L))).

Definition sample_frames {A : Type} (zero : A) (s : @Sample A) : Tensor3 A :=
  map (frame_of (padded_row zero s))
    (seq 0 (Z.to_nat (n_frames (Z.of_nat (shape1 (waveform s)))))).

(** The sum of the frame counts of line 97 over a batch. *)
Definition frame_total {A : Type} (batch : list (@Sample A)) : Z :=
  fold_right Z.add 0
    (map (fun s => n_frames (Z.of_nat (shape1 (waveform s)))) batch).

(** A two-channel sample of 400 samples per channel. *)
Definition stereo_sample : @Sample Z :=
  sample_of (mkTensor2 400 [repeat 1 400; repeat 2 400]).

(** * Properties *)

(** ** Strings and paths *)

Section PyStrFacts.

Local Open Scope string_scope.

Lemma append_cons (x : ascii) (a b : string) :
  String x a +:+ b = String x (a +:+ b).
Proof. reflexivity. Qed.

Lemma append_nil (b : string) : "" +:+ b = b.
Proof. reflexivity. Qed.

Lemma append_assoc (a b c : string) : (a +:+ b) +:+ c = a +:+ (b +:+ c).
Proof.
  induction a as [|x a IH]; [reflexivity|].
  rewrite !append_cons. now f_equal.
Qed.

Lemma append_nonempty_r (a b : string) : b <> "" -> a +:+ b <> "".
Proof.
  intros Hb. destruct a; [exact Hb | rewrite append_cons; discriminate].
Qed.

Lemma eqb_empty_false (s : string) : s <> "" -> String.eqb s "" = false.
Proof. intros Hs. destruct s; [congruence | reflexivity]. Qed.

Lemma endswith_sep_app (a b : string) :
  b <> "" -> PyStr.endswith (a +:+ b) "/" = PyStr.endswith b "/".
Proof.
  intros Hb. induction a as [|x a IH]; [reflexivity|].
  rewrite append_cons. cbn [PyStr.endswith]. rewrite IH.
  replace (String.eqb (String x (a +:+ b)) "/") with false; [reflexivity|].
  cbn [String.eqb]. destruct (Ascii.eqb x "/"); [|reflexivity].
  symmetry. apply eqb_empty_false, append_nonempty_r, Hb.
Qed.

Lemma startswith_sep_app (a b : string) :
  a <> "" -> PyStr.startswith (a +:+ b) "/" = PyStr.startswith a "/".
Proof.
  intros Ha. destruct a as [|x a]; [congruence|].
  unfold PyStr.startswith. rewrite append_cons. cbn [String.prefix].
  destruct (ascii_dec "/" x); [|reflexivity].
  destruct (a +:+ b); destruct a; reflexivity.
Qed.

Lemma startswith_sep_substring (n : nat) (s : string) :
  PyStr.startswith s "/" = false ->
  PyStr.startswith (substring 0 n s) "/" = false.
Proof.
  unfold PyStr.startswith.
  destruct s as [|x s]; destruct n; cbn [substring String.prefix]; auto.
  destruct (ascii_dec "/" x); [|reflexivity].
  destruct s; intros; discriminate.
Qed.

(** [s[:n]] and the rest of [s] make up [s]. *)
Lemma substring_split (n : nat) (s : string) :
  (n <= String.length s)%nat ->
  exists tail, s = substring 0 n s +:+ tail
               /\ String.length tail = (String.length s - n)%nat.
Proof.
  revert s. induction n as [|n IH]; intros s Hn.
  - exists s. destruct s; cbn; split; reflexivity.
  - destruct s as [|x s]; cbn in Hn; [lia|].
    destruct (IH s ltac:(lia)) as (tail & E & L).
    exists tail. cbn [substring String.length]. rewrite append_cons.
    split; [now rewrite <- E | exact L].
Qed.

Lemma substring_empty_iff (n : nat) (s : string) :
  substring 0 n s <> "" -> (0 < n)%nat /\ s <> "".
Proof. destruct n, s; cbn; intros H; try congruence; split; [lia|discriminate]. Qed.

(** One round of [os.path.join] on a relative component. *)
Lemma join_go_relative (path b : string) (ps : list string) :
  path <> "" ->
  PyStr.endswith path "/" = false ->
  PyStr.startswith b "/" = false ->
  join_go path (b :: ps) = join_go (path +:+ "/" +:+ b) ps.
Proof.
  intros Hp He Hb. cbn [join_go]. rewrite Hb, He, (eqb_empty_false _ Hp).
  reflexivity.
Qed.

End PyStrFacts.

(** ** The audio path *)

(** C2, counterexample: for the file_id of the specification's example the
    code does not derive the path the specification gives (the utterance
    group is [Ses01F_impro01], the file_id without its last 5 characters,
    not [Ses01F_impro01_F]); and a file_id of fewer than 5 characters has
    no character at index 4, so line 54 raises IndexError. *)
Lemma audio_path_example_differs :
  audio_path "Ses01F_impro01_F000"
  <> Ok "Session1/sentences/wav/Ses01F_impro01_F/Ses01F_impro01_F000.wav"%string
  /\ audio_path "Ses01F_impro01_F000"
     = Ok "Session1/sentences/wav/Ses01F_impro01/Ses01F_impro01_F000.wav"%string
  /\ audio_path "abc" = Raise IndexError.
Proof.
  split; [|split]; [|reflexivity|reflexivity].
  vm_compute. discriminate.
Qed.

(** C2, amended: for every file_id whose character at index 4 is [N],
    whose utterance group (the file_id without its last 5 characters) is
    not empty, and in which neither the first character, nor [N], nor the
    last character of the group is the path separator, line 54 derives
    [Session<N>/sentences/wav/<utterance_group>/<file_id>.wav]; the group
    and a tail of 5 characters make up the file_id. *)
Theorem audio_path_layout (file_id : string) (N : ascii) :
  String.get 4 file_id = Some N ->
  N <> "/"%char ->
  PyStr.startswith file_id "/" = false ->
  PyStr.drop_last 5 file_id <> EmptyString ->
  PyStr.endswith (PyStr.drop_last 5 file_id) "/" = false ->
  audio_path file_id = Ok (layout_path N (PyStr.drop_last 5 file_id) file_id)
  /\ exists tail, String.length tail = 5%nat
                  /\ file_id = PyStr.drop_last 5 file_id +:+ tail.
Proof.
  intros Hget HN Hstart Hne Hend. split.
  - unfold audio_path, PyStr.getitem. rewrite Hget. cbn [res_bind].
    unfold os_path_join, layout_path. f_equal.
    assert (HfN : file_id <> EmptyString).
    { intros ->. discriminate. }
    rewrite join_go_relative; [| | |reflexivity].
    2:{ apply append_nonempty_r. discriminate. }
    2:{ rewrite endswith_sep_app by discriminate. cbn.
        destruct (Ascii.eqb_spec N "/"); [congruence | reflexivity]. }
    rewrite join_go_relative; [| | |reflexivity].
    2:{ apply append_nonempty_r. discriminate. }
    2:{ rewrite endswith_sep_app by discriminate. reflexivity. }
    rewrite join_go_relative.
    2:{ apply append_nonempty_r. discriminate. }
    2:{ rewrite endswith_sep_app by discriminate. reflexivity. }
    2:{ apply startswith_sep_substring, Hstart. }
    rewrite join_go_relative.
    2:{ apply append_nonempty_r. discriminate. }
    2:{ rewrite endswith_sep_app by (apply append_nonempty_r, Hne).
        rewrite (endswith_sep_app "/") by exact Hne. exact Hend. }
    2:{ rewrite startswith_sep_app by exact HfN. exact Hstart. }
    cbn [join_go]. rewrite !append_assoc. reflexivity.
  - unfold PyStr.drop_last in *.
    destruct (substring_empty_iff _ _ Hne) as [Hlen _].
    destruct (substring_split (String.length file_id - 5) file_id ltac:(lia))
      as (tail & E & L).
    exists tail. split; [lia | exact E].
Qed.

(** The file_id of the specification's example: session 1, utterance group
    [Ses01F_impro01]. *)
Lemma audio_path_layout_example :
  audio_path "Ses01F_impro01_F000"
  = Ok "Session1/sentences/wav/Ses01F_impro01/Ses01F_impro01_F000.wav"%string.
Proof.
  apply (audio_path_layout "Ses01F_impro01_F000" "1");
    first [ reflexivity | discriminate ].
Defined.

(** ** Index construction *)

Section IndexFacts.

Lemma res_mapM_map {X Y} (f : X -> res Y) (g : X -> Y) (xs : list X) :
  (forall x, f x = Ok (g x)) -> res_mapM f xs = Ok (map g xs).
Proof.
  intros Hf. induction xs as [|x xs IH]; [reflexivity|].
  cbn [res_mapM map]. rewrite Hf, IH. reflexivity.
Qed.

Lemma res_mapM_Forall2 {X Y} (f : X -> res Y) (xs : list X) (ys : list Y) :
  res_mapM f xs = Ok ys -> Forall2 (fun x y => f x = Ok y) xs ys.
Proof.
  revert ys. induction xs as [|x xs IH]; intros ys; cbn [res_mapM].
  - intros [= <-]. constructor.
  - destruct (f x) as [y|e] eqn:Ey; cbn [res_bind]; [|discriminate].
    destruct (res_mapM f xs) as [ys'|e]; cbn [res_bind]; [|discriminate].
    intros [= <-]. constructor; [exact Ey | now apply IH].
Qed.

Lemma parse_line_fields (line : string) : parse_line line = Ok (fields line).
Proof. reflexivity. Qed.

Lemma utterance_rows_fields (lines : list string) :
  utterance_rows lines
  = Ok (map fields (List.filter (fun l => PyStr.startswith l "[") lines)).
Proof. apply res_mapM_map, parse_line_fields. Qed.


Lemma read_files_rows (fs : FileSystem) (path : string)
  (files : list string) (rows : list (list string)) :
  read_files fs path files = Ok rows ->
  rows = map fields
           (List.filter (fun l => PyStr.startswith l "[")
              (flat_map (file_lines fs path) files)).
Proof.
  revert rows. induction files as [|f files IH]; intros rows; cbn [read_files].
  - intros [= <-]. reflexivity.
  - cbn [flat_map]. unfold file_lines at 1.
    destruct (open_lines fs (os_path_join path [f])) as [lines|e0];
      cbn [res_bind]; [|discriminate].
    rewrite utterance_rows_fields. cbn [res_bind].
    destruct (read_files fs path files) as [more|e]; cbn [res_bind];
      [|discriminate].
    intros [= <-]. rewrite List.filter_app, map_app, (IH more eq_refl).
    reflexivity.
Qed.

Lemma read_sessions_rows (fs : FileSystem) (root : string)
  (sessions : list nat) (rows : list (list string)) :
  read_sessions fs root sessions = Ok rows ->
  rows = map fields
           (List.filter (fun l => PyStr.startswith l "[")
              (flat_map
                 (fun i => flat_map (file_lines fs (session_path root i))
                             (evaluation_files fs root i))
                 sessions)).
Proof.
  revert rows.
  induction sessions as [|i sessions IH]; intros rows; cbn [read_sessions].
  - intros [= <-]. reflexivity.
  - unfold session_files.
    destruct (os_listdir fs (session_path root i)) as [names|] eqn:El;
      cbn [res_bind]; [|discriminate].
    assert (Ef : evaluation_files fs root i
                 = List.filter (fun f => PyStr.endswith f ".txt") names).
    { unfold evaluation_files. now rewrite El. }
    destruct (read_files fs _ _) as [r|e] eqn:Er; cbn [res_bind];
      [|discriminate].
    destruct (read_sessions fs root sessions) as [more|e]; cbn [res_bind];
      [|discriminate].
    intros [= <-]. cbn [flat_map].
    rewrite List.filter_app, map_app, (IH more eq_refl), Ef.
    rewrite (read_files_rows _ _ _ _ Er). reflexivity.
Qed.

(** The rows that [__init__] collects are the fields of the bracketed
    lines, in order. *)
Lemma read_sessions_bracketed (fs : FileSystem) (root : string)
  (data : list (list string)) :
  read_sessions fs root (seq 1 5) = Ok data ->
  data = map fields (bracketed_lines fs root).
Proof. intros H. apply read_sessions_rows in H. exact H. Qed.

Lemma cast_column_length (col : list Cell) :
  List.length (cast_column col) = List.length col.
Proof.
  unfold cast_column. destruct (forallb castable col);
    [apply length_map | reflexivity].
Qed.

Lemma column_length (j : nat) (rows : list (list Cell)) :
  List.length (column j rows) = List.length rows.
Proof. apply length_map. Qed.

Lemma to_object_array_length (data : list (list string)) :
  List.length (to_object_array data) = List.length data.
Proof. apply length_map. Qed.


Lemma table_column_length (data : list (list string)) (j : nat) :
  List.length (table_column data j) = List.length data.
Proof.
  unfold table_column.
  now rewrite cast_column_length, column_length, to_object_array_length.
Qed.

Lemma pd_DataFrame_inv (data : list (list string)) (d : DataFrame) :
  pd_DataFrame data = Ok d ->
  (data = [] \/ row_width data = 7%nat) /\
  d = mkDataFrame (List.length data)
        (table_column data 0) (table_column data 1) (table_column data 2)
        (table_column data 3) (table_column data 4) (table_column data 5)
        (table_column data 6).
Proof.
  unfold pd_DataFrame. destruct data as [|row data].
  - intros [= <-]. split; [now left | reflexivity].
  - destruct (Nat.eqb_spec (row_width (row :: data)) 7); [|discriminate].
    intros [= <-]. split; [now right | reflexivity].
Qed.

Lemma index_of_rows_inv (r : string) (data : list (list string))
  (ds : IemocapDataset) :
  index_of_rows r data = Ok ds ->
  exists paths,
    (data = [] \/ row_width data = 7%nat) /\
    res_mapM audio_path_cell (table_column data 2) = Ok paths /\
    ds = mkIemocapDataset r
           (mkDataFrame (List.length data)
              (table_column data 0) (table_column data 1) paths
              (map map_emotion (table_column data 3))
              (table_column data 4) (table_column data 5)
              (table_column data 6)).
Proof.
  unfold index_of_rows.
  destruct (pd_DataFrame data) as [d|e] eqn:Ed; cbn [res_bind];
    [|discriminate].
  apply pd_DataFrame_inv in Ed as [Hw ->].
  cbn [set_emotion col_file col_emotion index col_start col_end
       col_activation col_valence col_dominance].
  destruct (res_mapM audio_path_cell (table_column data 2)) as [paths|e] eqn:Ep;
    cbn [res_bind]; [|discriminate].
  intros [= <-]. exists paths. repeat split; try assumption.
Qed.

Lemma init_inv (fs : FileSystem) (r : string) (ds : IemocapDataset) :
  __init__ fs r = Ok ds ->
  exists data,
    read_sessions fs r (seq 1 5) = Ok data /\
    data = map fields (bracketed_lines fs r) /\
    index_of_rows r data = Ok ds.
Proof.
  unfold __init__.
  destruct (read_sessions fs r (seq 1 5)) as [data|e] eqn:Ed; cbn [res_bind];
    [|discriminate].
  intros H. exists data. repeat split; [|exact H].
  now apply read_sessions_bracketed.
Qed.


Lemma nth_filled (row : list string) (j k : nat) :
  nth j (map CStr row ++ repeat CNone k) CNone = cell_of (row !! j).
Proof.
  revert j. induction row as [|s row IH]; intros j.
  - cbn [map app]. rewrite nth_repeat. now destruct j.
  - destruct j; [reflexivity | apply IH].
Qed.

Lemma column_cells (data : list (list string)) (j : nat) :
  column j (to_object_array data)
  = map (fun row => cell_of (row !! j)) data.
Proof.
  unfold column, to_object_array. rewrite map_map.
  apply map_ext. intros row. apply nth_filled.
Qed.

Lemma is_float_not_emotion (s : string) (code : Z) :
  dict_get _emotions s = Some code -> FloatText.is_float s = false.
Proof.
  unfold _emotions. cbn [dict_get].
  repeat match goal with
         | |- context [String.eqb ?k s] =>
             destruct (String.eqb_spec k s); [subst s; reflexivity|]
         end.
  discriminate.
Qed.

Lemma map_emotion_cast_cell (c : Cell) :
  castable c = true -> map_emotion (cast_cell c) = map_emotion c.
Proof.
  destruct c as [s| |x]; cbn [castable cast_cell map_emotion];
    [|reflexivity..].
  intros Hf. destruct (dict_get _emotions s) as [code|] eqn:E;
    [|reflexivity].
  apply is_float_not_emotion in E. congruence.
Qed.

Lemma map_emotion_cast_column (col : list Cell) :
  map map_emotion (cast_column col) = map map_emotion col.
Proof.
  unfold cast_column. destruct (forallb castable col) eqn:E; [|reflexivity].
  rewrite map_map. apply map_ext_in. intros c Hc.
  apply map_emotion_cast_cell.
  rewrite forallb_forall in E. now apply E.
Qed.

Lemma emotion_column (data : list (list string)) :
  map map_emotion (table_column data 3) = map emotion_code data.
Proof.
  unfold table_column. rewrite map_emotion_cast_column, column_cells, map_map.
  apply map_ext. intros row. unfold emotion_code.
  now destruct (row !! 3%nat).
Qed.

Lemma row_width_lengths (data : list (list string)) :
  row_width data = fold_right Nat.max 0%nat (map List.length data).
Proof. induction data as [|row data IH]; cbn; [reflexivity | now rewrite <- IH]. Qed.

Lemma row_width_ge (data : list (list string)) (row : list string) :
  In row data -> (List.length row <= row_width data)%nat.
Proof.
  induction data as [|r data IH]; [intros []|].
  intros [->|H]; cbn [row_width fold_right]; [lia|].
  specialize (IH H). unfold row_width in IH. lia.
Qed.

Lemma row_width_lt (data : list (list string)) (k : nat) :
  (0 < k)%nat ->
  (forall row, In row data -> (List.length row < k)%nat) ->
  (row_width data < k)%nat.
Proof.
  intros Hk. induction data as [|r data IH]; intros H; [exact Hk|].
  cbn [row_width fold_right].
  pose proof (H r (or_introl eq_refl)).
  assert (row_width data < k)%nat by (apply IH; intros; apply H; now right).
  unfold row_width in *. lia.
Qed.

Lemma index_of_rows_width (r : string) (data : list (list string)) :
  data <> [] -> row_width data <> 7%nat ->
  index_of_rows r data = Raise ValueError.
Proof.
  intros Hne Hw. unfold index_of_rows, pd_DataFrame.
  destruct data as [|row data]; [congruence|].
  destruct (Nat.eqb_spec (row_width (row :: data)) 7); [congruence|].
  reflexivity.
Qed.

(** Whether the table can be built depends on the number of fields of
    every row and on the file fields only. *)
Lemma index_of_rows_ok (r : string) (data : list (list string)) :
  is_ok (index_of_rows r data)
  = match data with
    | [] => true
    | _ => (fold_right Nat.max 0%nat (map List.length data) =? 7)%nat
           && is_ok (res_mapM audio_path_cell
                       (cast_column
                          (map cell_of (map (fun row => row !! 2%nat) data))))
    end.
Proof.
  unfold index_of_rows, pd_DataFrame.
  destruct data as [|row data]; [reflexivity|].
  rewrite <- row_width_lengths.
  destruct (row_width (row :: data) =? 7)%nat; [|reflexivity].
  cbn [res_bind andb set_emotion col_file].
  unfold table_column. rewrite column_cells, map_map.
  destruct (res_mapM audio_path_cell _); reflexivity.
Qed.

Lemma insert_emotion_lengths (data : list (list string)) (i : nat)
  (row : list string) (s : string) :
  data !! i = Some row ->
  map List.length (<[i := <[3%nat := s]> row]> data) = map List.length data
  /\ map (fun row => row !! 2%nat) (<[i := <[3%nat := s]> row]> data)
     = map (fun row => row !! 2%nat) data.
Proof.
  revert i. induction data as [|r0 data IH]; intros i Hi; [discriminate|].
  destruct i as [|i]; cbn in Hi.
  - injection Hi as ->.
    change (<[0%nat := <[3%nat := s]> row]> (row :: data))
      with (<[3%nat := s]> row :: data).
    cbn [map]. rewrite length_insert.
    rewrite list_lookup_insert_ne by lia. split; reflexivity.
  - destruct (IH i Hi) as [E1 E2]. cbn [map].
    change (<[S i := <[3%nat := s]> row]> (r0 :: data))
      with (r0 :: <[i := <[3%nat := s]> row]> data).
    cbn [map]. rewrite E1, E2. split; reflexivity.
Qed.

End IndexFacts.

Lemma dict_get_outside (s : string) :
  ~ In s ["ang"; "hap"; "exc"; "sad"; "fru"; "fea"; "sur"; "neu"; "xxx"]%string ->
  dict_get _emotions s = None.
Proof.
  intros Hs. unfold _emotions. cbn [dict_get].
  repeat match goal with
         | |- context [String.eqb ?k s] =>
             destruct (String.eqb_spec k s);
             [exfalso; apply Hs; subst s; cbn; tauto|]
         end.
  reflexivity.
Qed.

(** C3, counterexample: an annotation line whose label [foo] is outside
    the enumeration does not stop index construction; the record is kept
    with the code NaN. *)
Lemma unknown_label_accepted :
  ~ In "foo"%string
      ["ang"; "hap"; "exc"; "sad"; "fru"; "fea"; "sur"; "neu"; "xxx"]%string
  /\ exists ds,
       __init__ unknown_label_fs "IEMOCAP" = Ok ds
       /\ map (fun row => row !! 3%nat)
            (map fields (bracketed_lines unknown_label_fs "IEMOCAP"))
          = [Some "foo"%string]
       /\ col_emotion (df ds) = [CNum F32_nan].
Proof.
  split.
  - cbn. intros H. repeat destruct H as [H|H]; try discriminate. exact H.
  - destruct (__init__ unknown_label_fs "IEMOCAP") as [ds|e] eqn:E;
      vm_compute in E; [|discriminate].
    injection E as <-. eexists. repeat split.
Qed.

(** C3, amended: [ang] maps to the code 1 and [xxx] to the code 9; a string
    [s] outside the enumeration maps to NaN. After index construction the
    emotion column holds, for every bracketed line in order, the code of
    its fourth field. No label raises an error: putting [s] in place of
    the emotion field of any row never changes whether the table can be
    built. *)
Theorem emotion_codes_of_index (fs : FileSystem) (r : string)
  (ds : IemocapDataset) (s : string) (data : list (list string)) (i : nat)
  (row : list string) :
  __init__ fs r = Ok ds ->
  ~ In s ["ang"; "hap"; "exc"; "sad"; "fru"; "fea"; "sur"; "neu"; "xxx"]%string ->
  data !! i = Some row ->
  map_emotion (CStr "ang") = CNum (F32_int 1)
  /\ map_emotion (CStr "xxx") = CNum (F32_int 9)
  /\ map_emotion (CStr s) = CNum F32_nan
  /\ col_emotion (df ds) = map emotion_code (map fields (bracketed_lines fs r))
  /\ is_ok (index_of_rows r (<[i := <[3%nat := s]> row]> data))
     = is_ok (index_of_rows r data).
Proof.
  intros Hinit Hs Hrow. repeat split.
  - cbn [map_emotion]. now rewrite (dict_get_outside s Hs).
  - apply init_inv in Hinit as (d & _ & -> & Hidx).
    apply index_of_rows_inv in Hidx as (paths & _ & _ & ->).
    cbn [df col_emotion]. apply emotion_column.
  - rewrite !index_of_rows_ok.
    destruct (insert_emotion_lengths data i row s Hrow) as [E1 E2].
    rewrite E1, E2.
    destruct data as [|r0 data]; [discriminate|].
    destruct i; reflexivity.
Qed.

(** The corpus with the label [foo]. *)
Lemma emotion_codes_of_index_witness :
  exists ds,
    __init__ unknown_label_fs "IEMOCAP" = Ok ds
    /\ map_emotion (CStr "foo") = CNum F32_nan
    /\ col_emotion (df ds) = [CNum F32_nan]
    /\ is_ok (index_of_rows "IEMOCAP"
                [["6.2901"; "8.2357"; "Ses01F_impro01_F000"; "foo";
                  "2.5000"; "2.5000"; "2.5000"]%string])
       = is_ok (index_of_rows "IEMOCAP"
                  [["6.2901"; "8.2357"; "Ses01F_impro01_F000"; "neu";
                    "2.5000"; "2.5000"; "2.5000"]%string]).
Proof.
  destruct (__init__ unknown_label_fs "IEMOCAP") as [ds|e] eqn:E.
  2:{ vm_compute in E. discriminate. }
  exists ds.
  assert (Hs : ~ In "foo"%string
                 ["ang"; "hap"; "exc"; "sad"; "fru"; "fea"; "sur"; "neu"; "xxx"]%string).
  { cbn. intros H. repeat destruct H as [H|H]; try discriminate. exact H. }
  destruct (emotion_codes_of_index unknown_label_fs "IEMOCAP" ds "foo"
              [["6.2901"; "8.2357"; "Ses01F_impro01_F000"; "neu";
                "2.5000"; "2.5000"; "2.5000"]%string] 0
              ["6.2901"; "8.2357"; "Ses01F_impro01_F000"; "neu";
               "2.5000"; "2.5000"; "2.5000"]%string E Hs eq_refl)
    as (_ & _ & H3 & H4 & H5).
  split; [reflexivity|]. split; [exact H3|].
  split; [rewrite H4; reflexivity | exact H5].
Defined.

Lemma table_column_short (data : list (list string)) (i j : nat)
  (row : list string) :
  data !! i = Some row ->
  (List.length row <= j)%nat ->
  table_column data j !! i = Some CNone
  \/ table_column data j !! i = Some (CNum F32_nan).
Proof.
  intros Hi Hlen. unfold table_column, cast_column.
  assert (Hc : column j (to_object_array data) !! i = Some CNone).
  { rewrite column_cells. rewrite list_lookup_fmap, Hi. cbn.
    now rewrite lookup_ge_None_2. }
  destruct (forallb castable _).
  - right. rewrite list_lookup_fmap, Hc. reflexivity.
  - now left.
Qed.

Section RowFacts.

Lemma get_in_range (s : string) (i : nat) :
  (i < String.length s)%nat -> exists c, String.get i s = Some c.
Proof.
  revert i. induction s as [|x s IH]; intros i Hi; cbn in Hi; [lia|].
  destruct i; [now exists x|]. cbn [String.get]. apply IH. lia.
Qed.

Lemma audio_path_ok (file_id : string) :
  (5 <= String.length file_id)%nat -> exists p, audio_path file_id = Ok p.
Proof.
  intros H. destruct (get_in_range file_id 4 ltac:(lia)) as [c Hc].
  unfold audio_path, PyStr.getitem. rewrite Hc. cbn [res_bind]. eauto.
Qed.

Lemma row_width_le (data : list (list string)) (k : nat) :
  (forall row, In row data -> (List.length row <= k)%nat) ->
  (row_width data <= k)%nat.
Proof.
  induction data as [|r data IH]; intros H; [cbn; lia|].
  cbn [row_width fold_right].
  pose proof (H r (or_introl eq_refl)).
  assert (row_width data <= k)%nat by (apply IH; intros; apply H; now right).
  unfold row_width in *. lia.
Qed.

Lemma audio_path_cell_cases (c : Cell) :
  is_ok (audio_path_cell c) = true
  \/ audio_path_cell c = Raise IndexError
  \/ audio_path_cell c = Raise TypeError.
Proof.
  destruct c as [file_id| |x]; cbn [audio_path_cell]; [|auto..].
  unfold audio_path, PyStr.getitem.
  destruct (String.get 4 file_id); cbn [res_bind is_ok]; auto.
Qed.

(** A cell that is not a string stops the list comprehension of line 54,
    unless an earlier file_id is too short and stops it first. *)
Lemma res_mapM_audio_path_fails (col : list Cell) (i : nat) (c : Cell) :
  col !! i = Some c ->
  audio_path_cell c = Raise TypeError ->
  res_mapM audio_path_cell col = Raise IndexError
  \/ res_mapM audio_path_cell col = Raise TypeError.
Proof.
  revert i. induction col as [|a col IH]; intros i Hi Hc; [discriminate|].
  cbn [res_mapM]. destruct i as [|i]; cbn in Hi.
  - injection Hi as ->. rewrite Hc. now right.
  - destruct (audio_path_cell_cases a) as [H|[H|H]].
    + destruct (audio_path_cell a) as [p|e]; [|discriminate H].
      cbn [res_bind]. destruct (IH i Hi Hc) as [E|E]; rewrite E; auto.
    + rewrite H. now left.
    + rewrite H. now right.
Qed.

Lemma index_of_rows_short (r : string) (data : list (list string)) (i : nat)
  (row : list string) :
  data !! i = Some row ->
  (List.length row < 3)%nat ->
  index_of_rows r data = Raise ValueError
  \/ index_of_rows r data = Raise IndexError
  \/ index_of_rows r data = Raise TypeError.
Proof.
  intros Hrow Hlen.
  assert (Hne : data <> []) by (intros ->; discriminate).
  destruct (Nat.eq_dec (row_width data) 7%nat) as [Hw|Hw].
  2:{ left. now apply index_of_rows_width. }
  right.
  assert (Hcell : exists c, table_column data 2 !! i = Some c
                            /\ audio_path_cell c = Raise TypeError).
  { destruct (table_column_short data i 2 row Hrow ltac:(lia)) as [H|H];
      eexists; (split; [exact H | reflexivity]). }
  destruct Hcell as (c & Hc & Hraise).
  unfold index_of_rows, pd_DataFrame.
  destruct data as [|row0 data]; [congruence|].
  rewrite Hw. cbn [Nat.eqb res_bind set_emotion col_file].
  destruct (res_mapM_audio_path_fails _ i c Hc Hraise) as [E|E];
    rewrite E; cbn [res_bind]; auto.
Qed.

Lemma acceptable_file_column (data : list (list string)) :
  forallb acceptable_row data = true ->
  exists paths, res_mapM audio_path_cell (table_column data 2) = Ok paths.
Proof.
  intros Hacc.
  assert (Hcol : table_column data 2
                 = map (fun row => cell_of (row !! 2%nat)) data).
  { unfold table_column, cast_column. rewrite column_cells.
    destruct data as [|row data]; [reflexivity|].
    cbn [forallb] in Hacc. apply andb_prop in Hacc as [Hrow _].
    unfold acceptable_row in Hrow. apply andb_prop in Hrow as [_ Hrow].
    cbn [map forallb]. destruct (row !! 2%nat) as [f|]; [|discriminate].
    apply andb_prop in Hrow as [_ Hf]. apply negb_true_iff in Hf.
    cbn [cell_of castable]. now rewrite Hf. }
  rewrite Hcol. clear Hcol.
  induction data as [|row data IH]; [now exists []|].
  cbn [forallb] in Hacc. apply andb_prop in Hacc as [Hrow Hall].
  destruct (IH Hall) as [paths Hpaths].
  unfold acceptable_row in Hrow. apply andb_prop in Hrow as [_ Hrow].
  cbn [map res_mapM]. destruct (row !! 2%nat) as [f|]; [|discriminate].
  apply andb_prop in Hrow as [Hlen _]. apply Nat.leb_le in Hlen.
  destruct (audio_path_ok f Hlen) as [p Hp].
  cbn [cell_of audio_path_cell]. rewrite Hp. cbn [res_bind].
  rewrite Hpaths. cbn [res_bind]. eauto.
Qed.

Lemma index_of_acceptable_rows (r : string) (data : list (list string)) :
  forallb acceptable_row data = true ->
  existsb (fun row => (List.length row =? 7)%nat) data = true ->
  exists ds, index_of_rows r data = Ok ds.
Proof.
  intros Hacc Hseven.
  destruct (acceptable_file_column data Hacc) as [paths Hpaths].
  apply existsb_exists in Hseven as (row7 & Hin7 & Hlen7).
  apply Nat.eqb_eq in Hlen7.
  assert (Hw : row_width data = 7%nat).
  { pose proof (row_width_ge data row7 Hin7).
    assert (row_width data <= 7)%nat; [|lia].
    apply row_width_le. intros row Hin.
    rewrite forallb_forall in Hacc. specialize (Hacc row Hin).
    unfold acceptable_row in Hacc.
    apply andb_prop in Hacc as [Hacc _]. apply andb_prop in Hacc as [_ Hle].
    now apply Nat.leb_le in Hle. }
  unfold index_of_rows, pd_DataFrame.
  destruct data as [|row0 data]; [destruct Hin7|].
  rewrite Hw. cbn [Nat.eqb res_bind set_emotion col_file].
  rewrite Hpaths. cbn [res_bind]. eauto.
Qed.

End RowFacts.

(** C4, counterexample: the second selected line yields 4 fields, the
    first one 7; index construction succeeds with 2 records, the missing
    fields of the second one filled with NaN. *)
Lemma short_line_filled :
  exists ds,
    __init__ short_line_fs "IEMOCAP" = Ok ds
    /\ map List.length (map fields (bracketed_lines short_line_fs "IEMOCAP"))
       = [7; 4]%nat
    /\ __len__ ds = 2
    /\ col_activation (df ds) = [CNum (F32_text "2.5000"); CNum F32_nan]
    /\ col_valence (df ds) = [CNum (F32_text "2.5000"); CNum F32_nan]
    /\ col_dominance (df ds) = [CNum (F32_text "2.5000"); CNum F32_nan].
Proof.
  destruct (__init__ short_line_fs "IEMOCAP") as [ds|e] eqn:E;
    vm_compute in E; [|discriminate].
  injection E as <-. eexists. repeat split.
Qed.

(** A line of two fields beside a line of 7: the file field of its record
    is missing, and index construction stops with TypeError. *)
Lemma two_field_line_aborts :
  map List.length (map fields (bracketed_lines two_field_fs "IEMOCAP"))
  = [7; 2]%nat
  /\ __init__ two_field_fs "IEMOCAP" = Raise TypeError.
Proof. split; vm_compute; reflexivity. Qed.

(** C4, amended: once the files are read, the rows that index construction
    collects are the fields of the bracketed lines. For any of them,
    [row]: if it has more than 7 fields, index construction raises
    ValueError; so it does when every row has fewer than 7 fields; if
    [row] has fewer than 3 fields, its file field is missing and index
    construction raises an exception (ValueError, IndexError or
    TypeError). Rows of 3 to 6 fields beside a row of 7 are no error:
    when every row has 3 to 7 fields, one of them 7, and every file_id
    has at least 5 characters and is not numeric text, index construction
    succeeds. Whenever it succeeds, [row] has 3 to 7 fields, every row is
    a record, and each of the trailing columns that [row] does not reach
    holds a missing value (None or NaN) in its record. *)
Theorem field_count_of_lines (fs : FileSystem) (r : string)
  (data : list (list string)) (i : nat) (row : list string) :
  read_sessions fs r (seq 1 5) = Ok data ->
  data !! i = Some row ->
  data = map fields (bracketed_lines fs r)
  /\ ((7 < List.length row)%nat -> __init__ fs r = Raise ValueError)
  /\ ((forall row', In row' data -> (List.length row' < 7)%nat) ->
      __init__ fs r = Raise ValueError)
  /\ ((List.length row < 3)%nat ->
      __init__ fs r = Raise ValueError
      \/ __init__ fs r = Raise IndexError
      \/ __init__ fs r = Raise TypeError)
  /\ (forallb acceptable_row data = true ->
      existsb (fun row' => (List.length row' =? 7)%nat) data = true ->
      exists ds, __init__ fs r = Ok ds)
  /\ (forall ds,
      __init__ fs r = Ok ds ->
      (3 <= List.length row <= 7)%nat
      /\ __len__ ds = Z.of_nat (List.length data)
      /\ forall j, (List.length row <= j < 7)%nat ->
           nth_column (df ds) j !! i = Some CNone
           \/ nth_column (df ds) j !! i = Some (CNum F32_nan)).
Proof.
  intros Hread Hrow.
  assert (Hin : In row data).
  { apply list_elem_of_In. eapply list_elem_of_lookup_2, Hrow. }
  assert (Hne : data <> []) by (intros ->; discriminate).
  assert (Hinit : __init__ fs r = index_of_rows r data).
  { unfold __init__. now rewrite Hread. }
  assert (Hwide : (7 < List.length row)%nat -> __init__ fs r = Raise ValueError).
  { intros Hlen. rewrite Hinit.
    apply index_of_rows_width; [exact Hne|].
    pose proof (row_width_ge data row Hin). lia. }
  assert (Hshort : (List.length row < 3)%nat ->
                   __init__ fs r = Raise ValueError
                   \/ __init__ fs r = Raise IndexError
                   \/ __init__ fs r = Raise TypeError).
  { intros Hlen. rewrite Hinit. now apply (index_of_rows_short r data i row). }
  split; [now apply read_sessions_bracketed|].
  split; [exact Hwide|]. split.
  { intros Hall. rewrite Hinit.
    apply index_of_rows_width; [exact Hne|].
    pose proof (row_width_lt data 7 ltac:(lia) Hall). lia. }
  split; [exact Hshort|]. split.
  { intros Hacc Hseven. rewrite Hinit.
    now apply index_of_acceptable_rows. }
  intros ds Hok.
  assert (Hlen : (3 <= List.length row <= 7)%nat).
  { split.
    - destruct (Nat.le_gt_cases 3 (List.length row)) as [H|H]; [exact H|].
      destruct (Hshort H) as [E|[E|E]]; rewrite E in Hok; discriminate Hok.
    - destruct (Nat.le_gt_cases (List.length row) 7) as [H|H]; [exact H|].
      rewrite (Hwide H) in Hok. discriminate Hok. }
  split; [exact Hlen|].
  rewrite Hinit in Hok.
  apply index_of_rows_inv in Hok as (paths & _ & _ & ->).
  cbn [df __len__ index]. split; [reflexivity|].
  intros j Hj.
  destruct j as [|[|[|[|[|[|[|j]]]]]]]; try lia;
    cbn [nth_column col_emotion col_activation col_valence col_dominance].
  - right. rewrite list_lookup_fmap.
    destruct (table_column_short data i 3 row Hrow ltac:(lia)) as [E|E];
      rewrite E; reflexivity.
  - apply (table_column_short data i 4 row Hrow). lia.
  - apply (table_column_short data i 5 row Hrow). lia.
  - apply (table_column_short data i 6 row Hrow). lia.
Qed.

(** The corpus whose second record stops after the emotion field: its
    rows are acceptable, the table is built, and the three columns after
    the emotion hold a missing value in the second record. And the corpus
    whose second line has two fields: no table is built. *)
Lemma field_count_of_lines_witness :
  (exists ds,
     __init__ short_line_fs "IEMOCAP" = Ok ds
     /\ __len__ ds = 2
     /\ (col_activation (df ds) !! 1%nat = Some CNone
         \/ col_activation (df ds) !! 1%nat = Some (CNum F32_nan))
     /\ (col_valence (df ds) !! 1%nat = Some CNone
         \/ col_valence (df ds) !! 1%nat = Some (CNum F32_nan))
     /\ (col_dominance (df ds) !! 1%nat = Some CNone
         \/ col_dominance (df ds) !! 1%nat = Some (CNum F32_nan)))
  /\ (__init__ two_field_fs "IEMOCAP" = Raise ValueError
      \/ __init__ two_field_fs "IEMOCAP" = Raise IndexError
      \/ __init__ two_field_fs "IEMOCAP" = Raise TypeError).
Proof.
  split.
  - destruct (field_count_of_lines short_line_fs "IEMOCAP"
                [["6.2901"; "8.2357"; "Ses01F_impro01_F000"; "neu";
                  "2.5000"; "2.5000"; "2.5000"];
                 ["10.0100"; "11.3925"; "Ses01F_impro01_F001"; "xxx"]]%string
                1 ["10.0100"; "11.3925"; "Ses01F_impro01_F001"; "xxx"]%string)
      as (_ & _ & _ & _ & Hok & H).
    { vm_compute. reflexivity. }
    { reflexivity. }
    destruct Hok as [ds E]; [vm_compute; reflexivity..|].
    destruct (H ds E) as (_ & Hlen & Hfill).
    exists ds. split; [exact E|]. split; [exact Hlen|].
    split; [|split].
    + apply (Hfill 4%nat). cbn. lia.
    + apply (Hfill 5%nat). cbn. lia.
    + apply (Hfill 6%nat). cbn. lia.
  - apply (field_count_of_lines two_field_fs "IEMOCAP"
             [["6.2901"; "8.2357"; "Ses01F_impro01_F000"; "neu";
               "2.5000"; "2.5000"; "2.5000"];
              ["10.0100"; "11.3925"]]%string
             1 ["10.0100"; "11.3925"]%string).
    + vm_compute. reflexivity.
    + reflexivity.
    + cbn. lia.
Defined.

(** C7: after construction, [__len__] is the number of lines beginning
    with an opening bracket in the evaluation text files of the 5
    sessions. *)
Theorem len_counts_bracketed_lines (fs : FileSystem) (r : string)
  (ds : IemocapDataset) :
  __init__ fs r = Ok ds ->
  __len__ ds = Z.of_nat (List.length (bracketed_lines fs r)).
Proof.
  intros Hinit. apply init_inv in Hinit as (data & _ & -> & Hidx).
  apply index_of_rows_inv in Hidx as (paths & _ & _ & ->).
  cbn [__len__ df index]. now rewrite length_map.
Qed.

(** The small corpus: 6 lines, 3 of them bracketed, 3 records. *)
Lemma len_counts_bracketed_lines_witness :
  exists ds,
    __init__ demo_fs "IEMOCAP" = Ok ds
    /\ List.length (evaluation_lines demo_fs "IEMOCAP") = 6%nat
    /\ List.length (bracketed_lines demo_fs "IEMOCAP") = 3%nat
    /\ __len__ ds = 3.
Proof.
  destruct (__init__ demo_fs "IEMOCAP") as [ds|e] eqn:E.
  2:{ vm_compute in E. discriminate. }
  exists ds. split; [reflexivity|]. split; [reflexivity|].
  split; [reflexivity|].
  rewrite (len_counts_bracketed_lines demo_fs "IEMOCAP" ds E). reflexivity.
Defined.

Lemma audio_path_cell_str (c p : Cell) :
  audio_path_cell c = Ok p -> exists rel, p = CStr rel.
Proof.
  destruct c as [f| |x]; cbn [audio_path_cell]; [|discriminate..].
  destruct (audio_path f) as [q|e]; cbn [res_bind]; [|discriminate].
  intros [= <-]. now exists q.
Qed.

Lemma loc_in_range (d : DataFrame) (col : DataFrame -> list Cell) (idx : Z) :
  List.length (col d) = index d ->
  0 <= idx < Z.of_nat (index d) ->
  exists c, col d !! Z.to_nat idx = Some c /\ loc d idx col = Ok c.
Proof.
  intros Hlen Hidx. unfold loc.
  destruct (Z.leb_spec 0 idx); [|lia].
  destruct (Z.ltb_spec idx (Z.of_nat (index d))); [|lia].
  cbn [andb].
  destruct (col d !! Z.to_nat idx) as [c|] eqn:E.
  - now exists c.
  - apply lookup_ge_None_1 in E. lia.
Qed.

Lemma loc_out_of_range (d : DataFrame) (col : DataFrame -> list Cell) (idx : Z) :
  idx < 0 \/ Z.of_nat (index d) <= idx ->
  loc d idx col = Raise KeyError.
Proof.
  intros Hidx. unfold loc.
  destruct (Z.leb_spec 0 idx), (Z.ltb_spec idx (Z.of_nat (index d)));
    cbn [andb]; try reflexivity; lia.
Qed.

(** C8: on a constructed dataset, [__getitem__] with an integer index
    below 0 or not below [__len__] raises KeyError (no clamping, no
    wrap-around from the end); with an index in range it reads row [idx]
    of every column, loads the audio at the root joined with that row's
    path, and returns the sample made of the loaded waveform and that
    row's labels (a failure of the loader propagates). *)
Theorem getitem_index_range {A : Type}
  (torchaudio_load : string -> res (@Tensor2 A * Z))
  (fs : FileSystem) (r : string) (ds : IemocapDataset) (idx : Z) :
  __init__ fs r = Ok ds ->
  (idx < 0 \/ __len__ ds <= idx ->
   __getitem__ torchaudio_load ds idx = Raise KeyError)
  /\ (0 <= idx < __len__ ds ->
      exists rel emo act val dom,
        col_file (df ds) !! Z.to_nat idx = Some (CStr rel)
        /\ col_emotion (df ds) !! Z.to_nat idx = Some emo
        /\ col_activation (df ds) !! Z.to_nat idx = Some act
        /\ col_valence (df ds) !! Z.to_nat idx = Some val
        /\ col_dominance (df ds) !! Z.to_nat idx = Some dom
        /\ __getitem__ torchaudio_load ds idx
           = match torchaudio_load (os_path_join r [rel]) with
             | Ok (w, sr) =>
                 Ok (mkSample (os_path_join r [rel]) w sr emo act val dom)
             | Raise e => Raise e
             end).
Proof.
  intros Hinit. split.
  - intros Hidx. unfold __getitem__.
    now rewrite (loc_out_of_range (df ds) col_file idx Hidx).
  - intros Hidx.
    apply init_inv in Hinit as (data & _ & _ & Hrows).
    apply index_of_rows_inv in Hrows as (paths & _ & Hpaths & ->).
    unfold __len__ in Hidx. cbn [df index root] in *.
    set (d := mkDataFrame _ _ _ _ _ _ _ _).
    assert (Hfile : List.length (col_file d) = index d).
    { cbn. apply res_mapM_Forall2, Forall2_length in Hpaths.
      rewrite <- Hpaths. apply table_column_length. }
    destruct (loc_in_range d col_file idx Hfile Hidx) as (f & Ef & Lf).
    destruct (loc_in_range d col_emotion idx) as (emo & Eemo & Lemo);
      [cbn; rewrite length_map; apply table_column_length | exact Hidx |].
    destruct (loc_in_range d col_activation idx) as (act & Eact & Lact);
      [apply table_column_length | exact Hidx |].
    destruct (loc_in_range d col_valence idx) as (val & Eval & Lval);
      [apply table_column_length | exact Hidx |].
    destruct (loc_in_range d col_dominance idx) as (dom & Edom & Ldom);
      [apply table_column_length | exact Hidx |].
    assert (Hstr : exists rel, f = CStr rel).
    { apply res_mapM_Forall2 in Hpaths.
      destruct (Forall2_lookup_r _ _ _ _ _ Hpaths Ef) as (c & _ & Hc).
      now apply audio_path_cell_str in Hc. }
    destruct Hstr as (rel & ->).
    exists rel, emo, act, val, dom. repeat (split; [assumption|]).
    unfold __getitem__. cbn [df root]. rewrite Lf. cbn [res_bind].
    destruct (torchaudio_load (os_path_join r [rel])) as [[w sr]|e];
      cbn [res_bind]; [|reflexivity].
    rewrite Lemo, Lact, Lval, Ldom. reflexivity.
Qed.

(** The small corpus: indices -1 and 3 raise KeyError, index 1 gives the
    sample of the second record (label [xxx], code 9). *)
Lemma getitem_index_range_witness :
  exists ds,
    __init__ demo_fs "IEMOCAP" = Ok ds
    /\ __getitem__ demo_load ds (-1) = Raise KeyError
    /\ __getitem__ demo_load ds 3 = Raise KeyError
    /\ exists s, __getitem__ demo_load ds 1 = Ok s
                 /\ emotion s = CNum (F32_int 9).
Proof.
  destruct (__init__ demo_fs "IEMOCAP") as [ds|e] eqn:E.
  2:{ vm_compute in E. discriminate. }
  exists ds. split; [reflexivity|].
  assert (Hlen : __len__ ds = 3).
  { vm_compute in E. injection E as <-. reflexivity. }
  split; [|split].
  - apply (getitem_index_range demo_load demo_fs "IEMOCAP" ds (-1) E). lia.
  - apply (getitem_index_range demo_load demo_fs "IEMOCAP" ds 3 E). lia.
  - destruct (getitem_index_range demo_load demo_fs "IEMOCAP" ds 1 E)
      as [_ Hin].
    destruct (Hin ltac:(lia)) as (rel & emo & act & val & dom
                                  & Hf & He & _ & _ & _ & Hget).
    vm_compute in E. injection E as <-.
    cbn in Hf, He. injection Hf as <-. injection He as <-.
    rewrite Hget. eexists. split; reflexivity.
Defined.

(** ** The framer on values *)

Section FramerLemmas.
Context {A : Type} (zero : A).

Lemma setitem_full (fr : Tensor3 A) (i : nat) (t : @Tensor2 A) (r : list A) :
  (i < List.length fr)%nat ->
  rows t = [r] ->
  shape1 t = Z.to_nat frame_length ->
  setitem fr i t = Ok (<[i := [r]]> fr).
Proof.
  intros Hi Hr Hs. unfold setitem.
  destruct (Nat.ltb_spec i (List.length fr)); [|lia].
  rewrite Hr, Hs, Nat.eqb_refl. reflexivity.
Qed.

Lemma fill_frames_seq (t : @Tensor2 A) (row : list A) :
  rows t = [row] ->
  List.length row = shape1 t ->
  forall (m k : nat) (fr : Tensor3 A),
    List.length fr = (k + m)%nat ->
    (m = 0%nat \/ ((k + m - 1) * 160 + 400 <= shape1 t)%nat) ->
    fill_frames t fr (seq k m)
    = Ok (take k fr ++ map (frame_of row) (seq k m)).
Proof.
  intros Hrows Hlen. induction m as [|m IH]; intros k fr Hfr Hb.
  - simpl. rewrite app_nil_r, firstn_all2 by lia. reflexivity.
  - destruct Hb as [Hb|Hb]; [discriminate|].
    change (seq k (S m)) with (k :: seq (S k) m).
    cbn [fill_frames map].
    change (Z.to_nat step_length) with 160%nat.
    change (Z.to_nat frame_length) with 400%nat.
    rewrite (setitem_full fr k _ (take 400 (drop (k * 160) row))).
    + cbn [res_bind]. rewrite IH.
      * f_equal. rewrite (take_S_r _ k [take 400 (drop (k * 160) row)]).
        -- rewrite take_insert_ge by lia. rewrite <- app_assoc. reflexivity.
        -- apply list_lookup_insert_eq. lia.
      * rewrite length_insert. lia.
      * destruct m; [left; reflexivity | right; lia].
    + lia.
    + unfold slice_cols. cbn [rows]. rewrite Hrows. cbn [map].
      replace (k * 160 + 400 - k * 160)%nat with 400%nat by lia.
      reflexivity.
    + unfold slice_cols. cbn [shape1].
      change (Z.to_nat frame_length) with 400%nat. lia.
Qed.

Lemma n_frames_bounds (L : Z) :
  let n := n_frames L in
  step_length * (n - 2) < L - frame_length <= step_length * (n - 1).
Proof.
  unfold n_frames, ceil_div, frame_length, step_length. cbv zeta.
  pose proof (Z.div_mod (- (L - 400)) 160 ltac:(lia)) as E.
  pose proof (Z.mod_pos_bound (- (L - 400)) 160 ltac:(lia)) as B.
  lia.
Qed.

(** The padding of line 98 is never negative, so [F.pad] never crops. *)
Lemma padding_length_nonneg (L : Z) : 0 <= padding_length L (n_frames L).
Proof.
  pose proof (n_frames_bounds L) as Hn. cbv zeta in Hn.
  unfold padding_length, frame_length, step_length in *.
  destruct (Z.ltb_spec L 400); lia.
Qed.

Lemma F_pad_nonneg (t : @Tensor2 A) (p : Z) :
  0 <= p ->
  F_pad zero t p
  = Ok (mkTensor2 (shape1 t + Z.to_nat p)
          (map (fun r => r ++ repeat zero (Z.to_nat p)) (rows t))).
Proof.
  intros Hp. unfold F_pad. destruct (Z.leb_spec 0 p); [reflexivity | lia].
Qed.

Lemma torch_zeros_length (n : Z) (z : Tensor3 A) :
  torch_zeros zero n = Ok z -> 0 <= n /\ List.length z = Z.to_nat n.
Proof.
  unfold torch_zeros. destruct (Z.ltb_spec n 0); [discriminate|].
  intros [= <-]. split; [lia|]. apply repeat_length.
Qed.

Lemma frame_item_mono (w : @Tensor2 A) (row : list A) :
  rows w = [row] ->
  List.length row = shape1 w ->
  frame_length <= Z.of_nat (shape1 w) ->
  let L := Z.of_nat (shape1 w) in
  let n := n_frames L in
  let p := frame_length + (n - 1) * step_length - L in
  frame_item zero w
  = Ok (map (frame_of (row ++ repeat zero (Z.to_nat p)))
          (seq 0 (Z.to_nat n))).
Proof.
  intros Hrows Hlen HL L n p.
  pose proof (n_frames_bounds L) as Hn. fold n in Hn. cbv zeta in Hn.
  unfold frame_length, step_length in *.
  unfold frame_item. fold L. fold n.
  assert (Hp : padding_length L n = p).
  { unfold padding_length, frame_length, step_length.
    destruct (Z.ltb_spec L 400); [lia | reflexivity]. }
  rewrite Hp. rewrite F_pad_nonneg by (unfold p; lia).
  cbn [res_bind].
  destruct (torch_zeros zero n) as [z|e] eqn:Ez.
  2:{ unfold torch_zeros in Ez. destruct (Z.ltb_spec n 0); [lia | discriminate]. }
  apply torch_zeros_length in Ez as [Hn0 Hz].
  cbn [res_bind].
  rewrite (fill_frames_seq _ (row ++ repeat zero (Z.to_nat p))).
  - reflexivity.
  - cbn [rows]. rewrite Hrows. reflexivity.
  - cbn [shape1]. rewrite length_app, repeat_length. lia.
  - lia.
  - right. cbn [shape1]. unfold p. lia.
Qed.

Lemma collate_loop_acc (batch : list (@Sample A)) (frames : Tensor3 A) :
  collate_loop zero frames batch
  = (more <- collate_loop zero [] batch ;; Ok (frames ++ more)).
Proof.
  revert frames. induction batch as [|item batch IH]; intros frames.
  - cbn. rewrite app_nil_r. reflexivity.
  - cbn [collate_loop]. destruct (frame_item zero (waveform item)) as [f|e];
      cbn [res_bind]; [|reflexivity].
    rewrite (IH (frames ++ f)), (IH ([] ++ f)).
    destruct (collate_loop zero [] batch) as [more|e]; cbn [res_bind];
      [|reflexivity].
    rewrite app_assoc. reflexivity.
Qed.

Lemma collate_fn_cons (item : @Sample A) (batch : list (@Sample A)) :
  collate_fn zero (item :: batch)
  = (item_frames <- frame_item zero (waveform item) ;;
     more <- collate_fn zero batch ;;
     Ok (item_frames ++ more)).
Proof.
  unfold collate_fn. cbn [collate_loop].
  destruct (frame_item zero (waveform item)) as [f|e]; cbn [res_bind];
    [|reflexivity].
  apply collate_loop_acc.
Qed.


Lemma take_repeat (x : A) (k n : nat) :
  (k <= n)%nat -> take k (repeat x n) = repeat x k.
Proof.
  revert n. induction k as [|k IH]; intros n Hk; [reflexivity|].
  destruct n as [|n]; [lia|]. cbn. f_equal. apply IH. lia.
Qed.

Lemma frame_item_short (w : @Tensor2 A) (row : list A) :
  rows w = [row] ->
  List.length row = shape1 w ->
  Z.of_nat (shape1 w) < frame_length ->
  frame_item zero w
  = if Z.of_nat (shape1 w) <=? 80 then Raise RuntimeError
    else if Z.of_nat (shape1 w) <=? 240 then Ok []
    else Ok [[row ++ repeat zero (400 - shape1 w)]].
Proof.
  intros Hrows Hlen HL.
  pose proof (n_frames_bounds (Z.of_nat (shape1 w))) as Hn. cbv zeta in Hn.
  unfold frame_length, step_length in *.
  unfold frame_item.
  set (L := Z.of_nat (shape1 w)) in *. set (n := n_frames L) in *.
  assert (Hp : padding_length L n = 400).
  { unfold padding_length, frame_length.
    destruct (Z.ltb_spec L 400); [reflexivity | lia]. }
  rewrite Hp, F_pad_nonneg by lia. cbn [res_bind].
  destruct (Z.leb_spec L 80) as [H80|H80].
  { assert (n = -1) as -> by lia. reflexivity. }
  destruct (Z.leb_spec L 240) as [H240|H240].
  { assert (n = 0) as -> by lia. reflexivity. }
  assert (n = 1) as -> by lia.
  change (torch_zeros zero 1) with (Ok [[repeat zero 400]]).
  cbn [res_bind]. change (Z.to_nat 1) with 1%nat.
  rewrite (fill_frames_seq _ (row ++ repeat zero 400)).
  - cbn [take app map seq]. unfold frame_of.
    change (Z.to_nat frame_length) with 400%nat.
    change (0 * Z.to_nat step_length)%nat with 0%nat.
    rewrite drop_0. rewrite firstn_app, firstn_all2 by lia.
    rewrite take_repeat by lia. rewrite Hlen. reflexivity.
  - cbn [rows]. rewrite Hrows. reflexivity.
  - cbn [shape1]. rewrite length_app, repeat_length. change (Z.to_nat 400) with 400%nat. lia.
  - reflexivity.
  - right. cbn [shape1]. change (Z.to_nat 400) with 400%nat. lia.
Qed.

End FramerLemmas.

(** C1: what the framer does with a single-channel waveform shorter than
    [frame_length]. With at most 80 samples (0 included) it raises
    RuntimeError, the frame count being -1; with 81 to 240 samples it
    returns no frame at all; only with more than 240 samples does it
    return exactly one frame, the waveform followed by zeros. *)
Theorem short_waveform_frames {A : Type} (zero : A) (s : @Sample A)
  (row : list A) :
  rows (waveform s) = [row] ->
  List.length row = shape1 (waveform s) ->
  (shape1 (waveform s) < 400)%nat ->
  ((shape1 (waveform s) <= 80)%nat ->
   collate_fn zero [s] = Raise RuntimeError)
  /\ ((80 < shape1 (waveform s) <= 240)%nat -> collate_fn zero [s] = Ok [])
  /\ ((240 < shape1 (waveform s))%nat ->
      collate_fn zero [s]
      = Ok [[row ++ repeat zero (400 - shape1 (waveform s))]]).
Proof.
  intros Hrows Hlen HL.
  rewrite collate_fn_cons.
  rewrite (frame_item_short zero _ row Hrows Hlen)
    by (unfold frame_length; lia).
  repeat split; intros H.
  - destruct (Z.leb_spec (Z.of_nat (shape1 (waveform s))) 80); [|lia].
    reflexivity.
  - destruct (Z.leb_spec (Z.of_nat (shape1 (waveform s))) 80); [lia|].
    destruct (Z.leb_spec (Z.of_nat (shape1 (waveform s))) 240); [|lia].
    reflexivity.
  - destruct (Z.leb_spec (Z.of_nat (shape1 (waveform s))) 80); [lia|].
    destruct (Z.leb_spec (Z.of_nat (shape1 (waveform s))) 240); [lia|].
    reflexivity.
Qed.

(** The empty waveform. *)
Lemma short_waveform_frames_witness :
  collate_fn 0 [sample_of (mono_waveform [])] = Raise RuntimeError.
Proof.
  apply (short_waveform_frames 0 (sample_of (mono_waveform [])) []);
    first [ reflexivity | cbn; lia ].
Defined.

(** C5: for a single-channel waveform of [L >= 400] samples, the frame
    count [n] is the ceiling of [(L - 400) / 160] plus one (the least [n]
    with [L - 400 <= 160 * (n - 1)]); the waveform is padded on the right
    with exactly [400 + (n - 1) * 160 - L] zeros; and the framer returns
    [n] frames, frame [i] being the 400 samples of the padded waveform
    from [i * 160] on, all of them within the padded waveform. *)
Theorem frames_of_long_waveform {A : Type} (zero : A) (s : @Sample A)
  (row : list A) :
  rows (waveform s) = [row] ->
  List.length row = shape1 (waveform s) ->
  400 <= Z.of_nat (shape1 (waveform s)) ->
  let L := Z.of_nat (shape1 (waveform s)) in
  let n := n_frames L in
  let p := padding_length L n in
  let padded := row ++ repeat zero (Z.to_nat p) in
  160 * (n - 2) < L - 400 <= 160 * (n - 1)
  /\ p = 400 + (n - 1) * 160 - L
  /\ 0 <= p
  /\ F_pad zero (waveform s) p = Ok (mkTensor2 (List.length padded) [padded])
  /\ exists frames,
       collate_fn zero [s] = Ok frames
       /\ Z.of_nat (List.length frames) = n
       /\ forall i, (i < List.length frames)%nat ->
            (i * 160 + 400 <= List.length padded)%nat
            /\ frames !! i = Some [take 400 (drop (i * 160) padded)].
Proof.
  intros Hrows Hlen HL L n p padded.
  pose proof (n_frames_bounds L) as Hn. fold n in Hn. cbv zeta in Hn.
  unfold frame_length, step_length in Hn.
  assert (Hp : p = 400 + (n - 1) * 160 - L).
  { unfold p, padding_length, frame_length, step_length.
    destruct (Z.ltb_spec L 400); [lia | reflexivity]. }
  assert (Hpadded : List.length padded = (shape1 (waveform s) + Z.to_nat p)%nat).
  { unfold padded. rewrite length_app, repeat_length. lia. }
  split; [exact Hn|]. split; [exact Hp|]. split; [lia|]. split.
  { rewrite F_pad_nonneg by lia. rewrite Hrows, Hpadded. reflexivity. }
  exists (map (frame_of padded) (seq 0 (Z.to_nat n))).
  split; [|split].
  - rewrite collate_fn_cons.
    rewrite (frame_item_mono zero _ row Hrows Hlen) by exact HL.
    cbn [res_bind]. unfold collate_fn. cbn [collate_loop res_bind].
    rewrite app_nil_r. fold L n. unfold padded. rewrite Hp. reflexivity.
  - rewrite length_map, length_seq. lia.
  - intros i Hi. rewrite length_map, length_seq in Hi. split; [lia|].
    rewrite list_lookup_fmap, lookup_seq_lt by exact Hi. reflexivity.
Qed.

(** A waveform of 561 samples: 3 frames, 159 zeros of padding. *)
Lemma frames_of_long_waveform_witness :
  n_frames 561 = 3
  /\ padding_length 561 3 = 159
  /\ exists frames,
       collate_fn 0 [demo_sample] = Ok frames
       /\ List.length frames = 3%nat.
Proof.
  destruct (frames_of_long_waveform 0 demo_sample (map Z.of_nat (seq 0 561)))
    as (_ & _ & _ & _ & frames & Hc & Hn & _);
    [reflexivity | reflexivity | cbn; lia |].
  split; [reflexivity|]. split; [reflexivity|].
  exists frames. split; [exact Hc|].
  apply Nat2Z.inj. rewrite Hn. reflexivity.
Defined.

(** C6: for a batch of two single-channel waveforms of 400 and 560
    samples, the first sample gives 1 frame, the second 2 frames, and the
    batch gives their concatenation in batch order: a plain list of 3
    frames, with nothing between the frames of the two samples. *)
Theorem frames_of_batch_400_560 {A : Type} (zero : A) (s1 s2 : @Sample A)
  (r1 r2 : list A) :
  rows (waveform s1) = [r1] -> shape1 (waveform s1) = 400%nat ->
  List.length r1 = 400%nat ->
  rows (waveform s2) = [r2] -> shape1 (waveform s2) = 560%nat ->
  List.length r2 = 560%nat ->
  collate_fn zero [s1] = Ok [[r1]]
  /\ collate_fn zero [s2] = Ok [[take 400 r2]; [drop 160 r2]]
  /\ collate_fn zero [s1; s2] = Ok ([[r1]] ++ [[take 400 r2]; [drop 160 r2]])
  /\ List.length ([[r1]] ++ [[take 400 r2]; [drop 160 r2]]) = 3%nat.
Proof.
  intros Hr1 Hs1 Hl1 Hr2 Hs2 Hl2.
  assert (F1 : frame_item zero (waveform s1) = Ok [[r1]]).
  { rewrite (frame_item_mono zero _ r1 Hr1) by (rewrite ?Hs1; unfold frame_length; lia).
    rewrite Hs1. change (n_frames (Z.of_nat 400)) with 1.
    change (Z.to_nat 1) with 1%nat.
    change (Z.to_nat (frame_length + (1 - 1) * step_length - Z.of_nat 400))
      with 0%nat.
    cbn [seq map repeat]. unfold frame_of.
    change (Z.to_nat frame_length) with 400%nat.
    change (0 * Z.to_nat step_length)%nat with 0%nat.
    rewrite app_nil_r, drop_0. rewrite firstn_all2 by lia. reflexivity. }
  assert (F2 : frame_item zero (waveform s2)
               = Ok [[take 400 r2]; [drop 160 r2]]).
  { rewrite (frame_item_mono zero _ r2 Hr2) by (rewrite ?Hs2; unfold frame_length; lia).
    rewrite Hs2. change (n_frames (Z.of_nat 560)) with 2.
    change (Z.to_nat 2) with 2%nat. cbn [seq map]. unfold frame_of.
    change (Z.to_nat (frame_length + (2 - 1) * step_length - Z.of_nat 560))
      with 0%nat.
    change (Z.to_nat frame_length) with 400%nat.
    change (0 * Z.to_nat step_length)%nat with 0%nat.
    change (1 * Z.to_nat step_length)%nat with 160%nat.
    cbn [repeat]. rewrite app_nil_r, drop_0.
    rewrite (firstn_all2 (drop 160 r2)) by (rewrite length_skipn; lia).
    reflexivity. }
  rewrite !collate_fn_cons, F1, F2. unfold collate_fn.
  cbn [collate_loop res_bind]. rewrite !app_nil_r. repeat split.
Qed.

(** Constant waveforms of 400 ones and 560 twos. *)
Lemma frames_of_batch_400_560_witness :
  collate_fn 0 [sample_of (mono_waveform (repeat 1 400));
                sample_of (mono_waveform (repeat 2 560))]
  = Ok ([[repeat 1 400]] ++ [[repeat 2 400]; [repeat 2 400]]).
Proof.
  destruct (frames_of_batch_400_560 0
              (sample_of (mono_waveform (repeat 1 400)))
              (sample_of (mono_waveform (repeat 2 560)))
              (repeat 1 400) (repeat 2 560))
    as (_ & _ & H & _);
    [reflexivity | reflexivity | reflexivity
     | reflexivity | reflexivity | reflexivity |].
  rewrite H. reflexivity.
Defined.

(** ** The framer on the object store *)

Section StoreFacts.

Context {A : Type} (zero : A).

Local Abbreviation heap := (gmap addr (@obj A)).

Lemma fresh_lookup (h : heap) : h !! fresh (dom h) = None.
Proof. apply not_elem_of_dom, is_fresh. Qed.

Lemma alloc_extends (h : heap) (o : @obj A) : h ⊆ <[fresh (dom h) := o]> h.
Proof. apply insert_subseteq, fresh_lookup. Qed.

Lemma fill_frames_st_run (pw itf : addr) (t : @Tensor2 A) :
  pw <> itf ->
  forall (range : list nat) (fr : Tensor3 A) (h : heap),
    h !! pw = Some (OTensor2 t) ->
    h !! itf = Some (OTensor3 fr) ->
    exists fr' : Tensor3 A,
      fill_frames_st pw itf range h
      = (match fill_frames t fr range with
         | Ok _ => Ok tt
         | Raise e => Raise e
         end, <[itf := OTensor3 fr']> h)
      /\ (forall x, fill_frames t fr range = Ok x -> fr' = x).
Proof.
  intros Hne. induction range as [|i range IH]; intros fr h Hpw Hitf.
  - exists fr. cbn. unfold st_ret. rewrite insert_id by exact Hitf.
    split; [reflexivity | now intros x [= <-]].
  - cbn [fill_frames_st fill_frames].
    unfold st_bind at 1, tensor2_at. rewrite Hpw.
    unfold st_bind at 1, tensor3_at. rewrite Hitf.
    unfold st_bind at 1, st_lift.
    destruct (setitem fr i _) as [fr1|e]; cbn [res_bind].
    + unfold st_bind at 1, store.
      destruct (IH fr1 (<[itf := OTensor3 fr1]> h)) as (fr' & E & Hfr').
      { rewrite lookup_insert_ne by congruence. exact Hpw. }
      { apply lookup_insert_eq. }
      exists fr'. rewrite E, insert_insert_eq. split; [reflexivity|exact Hfr'].
    + exists fr. rewrite insert_id by exact Hitf.
      split; [reflexivity | discriminate].
Qed.

Lemma frame_item_st_run (item w : addr) (d : gmap string val)
  (t : @Tensor2 A) (h : heap) :
  h !! item = Some (ODict d) ->
  d !! "waveform"%string = Some (VRef w) ->
  h !! w = Some (OTensor2 t) ->
  implements h (frame_item zero t) (frame_item_st zero item h).
Proof.
  intros Hitem Hd Hw. unfold frame_item_st, frame_item.
  unfold st_bind at 1, dict_getitem. rewrite Hitem, Hd.
  unfold st_bind at 1, tensor2_of, tensor2_at. rewrite Hw.
  unfold st_bind at 1, st_lift.
  destruct (F_pad zero t _) as [pw|e]; cbn [res_bind];
    [|split; [reflexivity | reflexivity]].
  unfold st_bind at 1, alloc.
  set (l1 := fresh (dom h)). set (h1 := <[l1 := OTensor2 pw]> h).
  assert (H01 : h ⊆ h1) by apply alloc_extends.
  unfold st_bind at 1.
  destruct (torch_zeros zero _) as [z|e]; cbn [res_bind];
    [|split; [exact H01 | reflexivity]].
  unfold st_bind at 1.
  set (l2 := fresh (dom h1)). set (h2 := <[l2 := OTensor3 z]> h1).
  assert (Hl2 : h1 !! l2 = None) by apply fresh_lookup.
  assert (Hl2' : h !! l2 = None).
  { destruct (h !! l2) eqn:E; [|reflexivity].
    eapply lookup_weaken in E; [|exact H01]. congruence. }
  assert (Hne : l1 <> l2).
  { intros E. rewrite <- E in Hl2. unfold h1 in Hl2.
    rewrite lookup_insert_eq in Hl2. discriminate. }
  destruct (fill_frames_st_run l1 l2 pw Hne
              (seq 0 (Z.to_nat (n_frames (Z.of_nat (shape1 t))))) z h2)
    as (fr' & E & Hfr').
  { unfold h2. rewrite lookup_insert_ne by congruence.
    apply lookup_insert_eq. }
  { apply lookup_insert_eq. }
  unfold st_bind at 1. rewrite E.
  assert (H03 : h ⊆ <[l2 := OTensor3 fr']> h2).
  { apply insert_subseteq_r; [exact Hl2'|].
    unfold h2. apply insert_subseteq_r; [exact Hl2' | exact H01]. }
  destruct (fill_frames pw z _) as [fr|e].
  + split; [exact H03|]. exists l2. cbn.
    rewrite (Hfr' fr eq_refl). repeat split; [exact Hl2'|].
    apply lookup_insert_eq.
  + split; [exact H03 | reflexivity].
Qed.

Lemma sample_at_weaken (h h' : heap) (item : addr) (s : @Sample A) :
  h ⊆ h' -> sample_at h item s -> sample_at h' item s.
Proof.
  intros Hsub (d & w & Hitem & Hp & Hw & Ht & Hrest).
  exists d, w. repeat split; try tauto.
  - eapply lookup_weaken; eassumption.
  - eapply lookup_weaken; eassumption.
Qed.

Lemma lookup_None_weaken (h h' : heap) (l : addr) :
  h ⊆ h' -> h' !! l = None -> h !! l = None.
Proof.
  intros Hsub Hl. destruct (h !! l) eqn:E; [|reflexivity].
  eapply lookup_weaken in E; [|exact Hsub]. congruence.
Qed.

Lemma collate_loop_st_run (batch : list addr) :
  forall (samples : list (@Sample A)) (h : heap) (frames : addr)
         (fr : Tensor3 A) (r : res addr) (h' : heap),
    Forall2 (sample_at h) batch samples ->
    h !! frames = Some (OTensor3 fr) ->
    collate_loop_st zero frames batch h = (r, h') ->
    h ⊆ h' /\
    match collate_loop zero fr samples with
    | Ok x => exists l, r = Ok l
                        /\ (l = frames \/ h !! l = None)
                        /\ h' !! l = Some (OTensor3 x)
    | Raise e => r = Raise e
    end.
Proof.
  induction batch as [|item batch IH];
    intros samples h frames fr r h' Hb Hf Hrun.
  - inversion Hb; subst. cbn in Hrun. injection Hrun as <- <-.
    split; [reflexivity|].
    exists frames. repeat split; [now left | exact Hf].
  - inversion Hb as [|? s ? samples' Hs Hb']; subst.
    cbn [collate_loop_st collate_loop] in *.
    destruct Hs as (d & w & Hitem & _ & Hw & Ht & _).
    pose proof (frame_item_st_run item w d (waveform s) h Hitem Hw Ht)
      as [H01 Hpost].
    unfold st_bind at 1 in Hrun.
    destruct (frame_item_st zero item h) as [r1 h1] eqn:E1.
    cbn [fst snd] in *.
    destruct (frame_item zero (waveform s)) as [itf|e]; cbn [res_bind].
    2:{ subst r1. injection Hrun as <- <-. split; [exact H01 | reflexivity]. }
    destruct Hpost as (l & -> & Hl & Hl1).
    unfold st_bind at 1, torch_cat in Hrun.
    unfold st_bind at 1, tensor3_at in Hrun.
    rewrite (lookup_weaken _ _ _ _ Hf H01) in Hrun.
    unfold st_bind at 1 in Hrun. rewrite Hl1 in Hrun. unfold alloc in Hrun.
    set (l3 := fresh (dom h1)) in *.
    set (h2 := <[l3 := OTensor3 (fr ++ itf)]> h1) in *.
    assert (H12 : h1 ⊆ h2) by apply alloc_extends.
    assert (H02 : h ⊆ h2) by (etransitivity; eassumption).
    destruct (IH samples' h2 l3 (fr ++ itf) r h') as [H2o Hres].
    { eapply Forall2_impl; [exact Hb'|].
      intros a b. now apply sample_at_weaken. }
    { apply lookup_insert_eq. }
    { exact Hrun. }
    split; [etransitivity; eassumption|].
    destruct (collate_loop zero (fr ++ itf) samples') as [x|e]; [|exact Hres].
    destruct Hres as (l' & Eo & Hl' & Hx).
    exists l'. split; [exact Eo|]. split; [|exact Hx].
    right. destruct Hl' as [->|Hl'].
    + eapply lookup_None_weaken; [exact H01 | apply fresh_lookup].
    + eapply lookup_None_weaken; eassumption.
Qed.

(** The framer on the store implements the framer on values. *)
Lemma collate_fn_st_run (batch : list addr) (samples : list (@Sample A))
  (h : heap) :
  Forall2 (sample_at h) batch samples ->
  implements h (collate_fn zero samples) (collate_fn_st zero batch h).
Proof.
  intros Hb.
  destruct (collate_fn_st zero batch h) as [r h'] eqn:Hrun.
  unfold collate_fn_st, collate_fn in *.
  unfold st_bind at 1, st_lift in Hrun.
  change (torch_zeros zero 0) with (@Ok (Tensor3 A) []) in Hrun.
  unfold st_bind at 1, alloc in Hrun.
  set (l0 := fresh (dom h)) in *. set (h0 := <[l0 := OTensor3 []]> h) in *.
  assert (H0 : h ⊆ h0) by apply alloc_extends.
  destruct (collate_loop_st_run batch samples h0 l0 [] r h') as [H1 Hres].
  { eapply Forall2_impl; [exact Hb|].
    intros a b. now apply sample_at_weaken. }
  { apply lookup_insert_eq. }
  { exact Hrun. }
  split; [etransitivity; eassumption|]. cbn [fst snd].
  destruct (collate_loop zero [] samples) as [x|e]; [|exact Hres].
  destruct Hres as (l & Eo & Hl & Hx).
  exists l. split; [exact Eo|]. split; [|exact Hx].
  destruct Hl as [->|Hl].
  - apply fresh_lookup.
  - eapply lookup_None_weaken; eassumption.
Qed.

Lemma returned_implements (h : heap) (pure : res (Tensor3 A))
  (out : res addr * heap) :
  implements h pure out -> returned out = pure.
Proof.
  intros [_ H]. destruct out as [r h']. cbn [fst snd] in H.
  destruct pure as [fr|e].
  - destruct H as (l & -> & _ & Hl). cbn. now rewrite Hl.
  - subst r. reflexivity.
Qed.

End StoreFacts.

(** C10: a call of the framer on a batch of sample dicts changes no object
    that was in the store before the call (so every sample still has the
    waveform and the labels it had), and the tensor it returns is at an
    address that was not in use before the call. *)
Theorem collate_fn_leaves_inputs {A : Type} (zero : A) (batch : list addr)
  (samples : list (@Sample A)) (h : gmap addr (@obj A)) :
  Forall2 (sample_at h) batch samples ->
  let out := collate_fn_st zero batch h in
  (forall l o, h !! l = Some o -> out.2 !! l = Some o)
  /\ Forall2 (sample_at out.2) batch samples
  /\ (forall l, out.1 = Ok l ->
        h !! l = None /\ exists fr, out.2 !! l = Some (OTensor3 fr)).
Proof.
  intros Hb out.
  destruct (collate_fn_st_run zero batch samples h Hb) as [Hsub Hres].
  fold out in Hsub, Hres. split; [|split].
  - intros l o Hl. eapply lookup_weaken; eassumption.
  - eapply Forall2_impl; [exact Hb|].
    intros a b. now apply sample_at_weaken.
  - intros l Hl. destruct (collate_fn zero samples) as [fr|e].
    + destruct Hres as (l' & El & Hfresh & Hfr).
      rewrite Hl in El. injection El as <-. split; [exact Hfresh|].
      now exists fr.
    + rewrite Hl in Hres. discriminate.
Qed.

(** The store with one sample dict. *)
Lemma demo_store_sample : Forall2 (sample_at demo_store) [0%nat] [demo_sample].
Proof.
  constructor; [|constructor].
  exists (dict_of demo_sample 1%nat), 1%nat. repeat split.
Qed.

Lemma collate_fn_leaves_inputs_witness :
  Forall2 (sample_at demo_store) [0%nat] [demo_sample]
  /\ (collate_fn_st 0 [0%nat] demo_store).2 !! 0%nat = demo_store !! 0%nat
  /\ (collate_fn_st 0 [0%nat] demo_store).2 !! 1%nat = demo_store !! 1%nat
  /\ Forall2 (sample_at (collate_fn_st 0 [0%nat] demo_store).2)
       [0%nat] [demo_sample].
Proof.
  pose proof demo_store_sample as Hb.
  destruct (collate_fn_leaves_inputs 0 [0%nat] [demo_sample] demo_store Hb)
    as (Hkeep & Hsame & _).
  split; [exact Hb|]. split; [|split; [|exact Hsame]].
  - apply Hkeep. reflexivity.
  - apply Hkeep. reflexivity.
Defined.

(** C9: two calls of the framer on the same batch, the second in the store
    that the first one left, return the same frames in the same order (or
    raise the same exception); these are the frames of the framer on
    values, and the second call leaves the tensor of the first intact. *)
Theorem collate_fn_repeatable {A : Type} (zero : A) (batch : list addr)
  (samples : list (@Sample A)) (h : gmap addr (@obj A)) :
  Forall2 (sample_at h) batch samples ->
  let first := collate_fn_st zero batch h in
  let second := collate_fn_st zero batch first.2 in
  returned second = returned first
  /\ returned first = collate_fn zero samples
  /\ (forall l, first.1 = Ok l -> second.2 !! l = first.2 !! l).
Proof.
  intros Hb first second.
  pose proof (collate_fn_st_run zero batch samples h Hb) as H1.
  fold first in H1.
  assert (Hb1 : Forall2 (sample_at first.2) batch samples).
  { eapply Forall2_impl; [exact Hb|].
    intros a b. apply sample_at_weaken, H1. }
  pose proof (collate_fn_st_run zero batch samples first.2 Hb1) as H2.
  fold second in H2.
  rewrite (returned_implements _ _ _ H1), (returned_implements _ _ _ H2).
  split; [reflexivity|]. split; [reflexivity|].
  intros l Hl. destruct H1 as [_ H1], H2 as [H2 _].
  destruct (collate_fn zero samples) as [fr|e].
  - destruct H1 as (l' & El & _ & Hfr). rewrite Hl in El. injection El as <-.
    rewrite Hfr. eapply lookup_weaken; eassumption.
  - rewrite Hl in H1. discriminate.
Qed.

Lemma collate_fn_repeatable_witness :
  Forall2 (sample_at demo_store) [0%nat] [demo_sample]
  /\ returned (collate_fn_st 0 [0%nat] (collate_fn_st 0 [0%nat] demo_store).2)
     = returned (collate_fn_st 0 [0%nat] demo_store).
Proof.
  pose proof demo_store_sample as Hb.
  split; [exact Hb|].
  apply (collate_fn_repeatable 0 [0%nat] [demo_sample] demo_store Hb).
Defined.

(** * Further properties *)

(** ** The framer on values, continued *)

Section FramerMore.
Context {A : Type} (zero : A).

Lemma collate_fn_nil : collate_fn zero (@nil (@Sample A)) = Ok [].
Proof. reflexivity. Qed.

(** X1: framing a batch made of two batches gives the frames of the first
    followed by the frames of the second, and raises as soon as one of
    them does (the first one's exception if both do). *)
Theorem collate_fn_app (b1 b2 : list (@Sample A)) :
  collate_fn zero (b1 ++ b2)
  = (f1 <- collate_fn zero b1 ;; f2 <- collate_fn zero b2 ;; Ok (f1 ++ f2)).
Proof.
  induction b1 as [|s b1 IH].
  - cbn [app]. rewrite collate_fn_nil. cbn [res_bind].
    destruct (collate_fn zero b2); reflexivity.
  - change ((s :: b1) ++ b2) with (s :: (b1 ++ b2)).
    rewrite !collate_fn_cons, IH.
    destruct (frame_item zero (waveform s)) as [f|e]; cbn [res_bind];
      [|reflexivity].
    destruct (collate_fn zero b1) as [f1|e]; cbn [res_bind]; [|reflexivity].
    destruct (collate_fn zero b2) as [f2|e]; cbn [res_bind]; [|reflexivity].
    now rewrite app_assoc.
Qed.

Lemma F_pad_wf (t t' : @Tensor2 A) (p : Z) :
  wf_tensor2 t -> F_pad zero t p = Ok t' -> wf_tensor2 t'.
Proof.
  unfold wf_tensor2, F_pad. intros Hwf.
  destruct (0 <=? p).
  - intros [= <-]. cbn [rows shape1]. apply Forall_map.
    eapply Forall_impl; [exact Hwf|]. cbn. intros r Hr.
    rewrite length_app, repeat_length. lia.
  - destruct (Z.of_nat (shape1 t) + p <? 0); [discriminate|].
    intros [= <-]. cbn [rows shape1]. apply Forall_map.
    eapply Forall_impl; [exact Hwf|]. cbn. intros r Hr.
    rewrite length_take. lia.
Qed.

Lemma slice_cols_wf (t : @Tensor2 A) (a b : nat) :
  wf_tensor2 t -> (a <= b)%nat -> wf_tensor2 (slice_cols t a b).
Proof.
  unfold wf_tensor2, slice_cols. intros Hwf Hab. cbn [rows shape1].
  apply Forall_map. eapply Forall_impl; [exact Hwf|]. cbn. intros r Hr.
  rewrite length_take, length_drop. lia.
Qed.

Lemma torch_zeros_shape (n : Z) (z : Tensor3 A) :
  torch_zeros zero n = Ok z -> Forall frame_shape z.
Proof.
  unfold torch_zeros. destruct (n <? 0); [discriminate|]. intros [= <-].
  apply List.Forall_forall. intros fr Hfr. apply repeat_spec in Hfr. subst fr.
  exists (repeat zero (Z.to_nat frame_length)).
  split; [reflexivity | exact (repeat_length _ _)].
Qed.

Lemma setitem_shape (frames frames' : Tensor3 A) (i : nat) (src : @Tensor2 A) :
  wf_tensor2 src -> Forall frame_shape frames ->
  setitem frames i src = Ok frames' -> Forall frame_shape frames'.
Proof.
  unfold setitem, wf_tensor2. intros Hwf Hfr.
  destruct (i <? List.length frames)%nat; [|discriminate].
  destruct (rows src) as [|r [|r' rs]]; try discriminate.
  apply Forall_inv in Hwf.
  destruct (Nat.eqb_spec (shape1 src) (Z.to_nat frame_length)) as [E|_].
  - intros [= <-]. apply Forall_insert; [exact Hfr|].
    exists r. split; [reflexivity|]. rewrite Hwf, E. reflexivity.
  - destruct (Nat.eqb_spec (shape1 src) 1) as [E|_]; [|discriminate].
    intros [= <-]. apply Forall_insert; [exact Hfr|].
    rewrite E in Hwf. destruct r as [|x [|y r]]; try discriminate.
    exists (repeat x (Z.to_nat frame_length)). split.
    + cbn [flat_map]. now rewrite app_nil_r.
    + exact (repeat_length _ _).
Qed.

Lemma fill_frames_shape (padded : @Tensor2 A) (range : list nat) :
  wf_tensor2 padded ->
  forall frames frames' : Tensor3 A,
    Forall frame_shape frames ->
    fill_frames padded frames range = Ok frames' ->
    Forall frame_shape frames'.
Proof.
  intros Hwf. induction range as [|i range IH]; intros frames frames' Hfr.
  - now intros [= <-].
  - cbn [fill_frames].
    destruct (setitem frames i _) as [fr1|e] eqn:E; cbn [res_bind];
      [|discriminate].
    apply IH. eapply setitem_shape; [|exact Hfr|exact E].
    apply slice_cols_wf; [exact Hwf | lia].
Qed.

Lemma frame_item_shape (w : @Tensor2 A) (frames : Tensor3 A) :
  wf_tensor2 w -> frame_item zero w = Ok frames -> Forall frame_shape frames.
Proof.
  intros Hwf. unfold frame_item.
  destruct (F_pad zero w _) as [pw|e] eqn:Ep; cbn [res_bind]; [|discriminate].
  destruct (torch_zeros zero _) as [z|e] eqn:Ez; cbn [res_bind];
    [|discriminate].
  apply fill_frames_shape.
  - eapply F_pad_wf; eassumption.
  - eapply torch_zeros_shape, Ez.
Qed.

(** X2: whatever the batch of 2-D waveforms, every frame that the framer
    returns has exactly one channel of exactly 400 samples. *)
Theorem collate_fn_frame_shape (batch : list (@Sample A)) (frames : Tensor3 A) :
  Forall (fun s => wf_tensor2 (waveform s)) batch ->
  collate_fn zero batch = Ok frames ->
  Forall frame_shape frames.
Proof.
  revert frames. induction batch as [|s batch IH]; intros frames Hwf.
  - intros [= <-]. constructor.
  - rewrite collate_fn_cons.
    destruct (frame_item zero (waveform s)) as [f|e] eqn:Ef; cbn [res_bind];
      [|discriminate].
    destruct (collate_fn zero batch) as [more|e]; cbn [res_bind];
      [|discriminate].
    intros [= <-]. apply Forall_app. split.
    + eapply frame_item_shape; [|exact Ef]. now apply Forall_inv in Hwf.
    + apply IH; [|reflexivity]. now apply Forall_inv_tail in Hwf.
Qed.

Lemma frame_item_long (s : @Sample A) :
  long_mono s -> frame_item zero (waveform s) = Ok (sample_frames zero s).
Proof.
  intros (row & Hrows & Hlen & HL).
  rewrite (frame_item_mono zero _ row Hrows Hlen)
    by (unfold frame_length; lia).
  unfold sample_frames, padded_row. rewrite Hrows. cbn [concat].
  rewrite app_nil_r. do 3 f_equal.
  unfold padding_length, frame_length.
  destruct (Z.ltb_spec (Z.of_nat (shape1 (waveform s))) 400); [lia|].
  reflexivity.
Qed.

Lemma sample_frames_length (s : @Sample A) :
  (400 <= shape1 (waveform s))%nat ->
  Z.of_nat (List.length (sample_frames zero s))
  = n_frames (Z.of_nat (shape1 (waveform s))).
Proof.
  intros HL. unfold sample_frames. rewrite length_map, length_seq.
  pose proof (n_frames_bounds (Z.of_nat (shape1 (waveform s)))) as Hn.
  cbv zeta in Hn. unfold frame_length, step_length in Hn. lia.
Qed.

(** X3: on a batch of single-channel waveforms of at least 400 samples
    each, the framer never raises: it returns, sample after sample, the
    frames cut every 160 samples from the padded waveform, and their
    number is the sum of the samples' frame counts. *)
Theorem collate_fn_long_batch (batch : list (@Sample A)) :
  Forall long_mono batch ->
  collate_fn zero batch = Ok (flat_map (sample_frames zero) batch)
  /\ Z.of_nat (List.length (flat_map (sample_frames zero) batch))
     = frame_total batch.
Proof.
  induction 1 as [|s batch Hs Hb [IH1 IH2]].
  - split; reflexivity.
  - split.
    + rewrite collate_fn_cons, (frame_item_long s Hs), IH1. reflexivity.
    + cbn [flat_map]. rewrite length_app, Nat2Z.inj_add, IH2.
      destruct Hs as (row & _ & _ & HL).
      rewrite (sample_frames_length s HL). reflexivity.
Qed.

Lemma overlap_join_frames (p : list A) :
  forall (m k : nat),
    List.length p = (k * 160 + 400 + m * 160)%nat ->
    overlap_join (map (frame_of p) (seq k (S m))) = drop (k * 160) p.
Proof.
  induction m as [|m IH]; intros k Hp.
  - cbn [seq map overlap_join]. unfold frame_of. cbn [concat].
    rewrite app_nil_r.
    change (Z.to_nat frame_length) with 400%nat.
    change (Z.to_nat step_length) with 160%nat.
    apply firstn_all2. rewrite length_drop. lia.
  - change (seq k (S (S m))) with (k :: seq (S k) (S m)).
    cbn [map].
    change (overlap_join
              (frame_of p k :: map (frame_of p) (seq (S k) (S m))))
      with (take 160 (concat (frame_of p k))
            ++ overlap_join (map (frame_of p) (seq (S k) (S m)))).
    rewrite IH by lia. unfold frame_of. cbn [concat]. rewrite app_nil_r.
    change (Z.to_nat frame_length) with 400%nat.
    change (Z.to_nat step_length) with 160%nat.
    rewrite take_take. replace (160 `min` 400)%nat with 160%nat by lia.
    replace (S k * 160)%nat with (k * 160 + 160)%nat by lia.
    rewrite <- drop_drop. apply take_drop.
Qed.

(** X4: no sample of a single-channel waveform of at least 400 samples is
    lost or moved: joining the frames by their 160-sample steps gives the
    padded waveform back, and its first [L] samples are the waveform. *)
Theorem overlap_join_collate_fn (s : @Sample A) (row : list A)
  (frames : Tensor3 A) :
  rows (waveform s) = [row] ->
  List.length row = shape1 (waveform s) ->
  (400 <= shape1 (waveform s))%nat ->
  collate_fn zero [s] = Ok frames ->
  overlap_join frames = padded_row zero s
  /\ take (shape1 (waveform s)) (overlap_join frames) = row.
Proof.
  intros Hrows Hlen HL Hc.
  assert (Hs : long_mono s) by (exists row; auto).
  rewrite collate_fn_cons, (frame_item_long s Hs) in Hc.
  cbn [res_bind] in Hc. rewrite collate_fn_nil in Hc. cbn [res_bind] in Hc.
  rewrite app_nil_r in Hc. injection Hc as <-.
  pose proof (n_frames_bounds (Z.of_nat (shape1 (waveform s)))) as Hn.
  cbv zeta in Hn. unfold frame_length, step_length in Hn.
  assert (Hjoin : overlap_join (sample_frames zero s) = padded_row zero s).
  { unfold sample_frames.
    set (n := n_frames (Z.of_nat (shape1 (waveform s)))) in *.
    replace (Z.to_nat n) with (S (Z.to_nat (n - 1))) by lia.
    rewrite (overlap_join_frames _ (Z.to_nat (n - 1)) 0).
    - apply drop_0.
    - unfold padded_row. rewrite Hrows. cbn [concat].
      rewrite app_nil_r, length_app, repeat_length, Hlen.
      fold n. unfold padding_length, frame_length, step_length.
      destruct (Z.ltb_spec (Z.of_nat (shape1 (waveform s))) 400); lia. }
  split; [exact Hjoin|].
  rewrite Hjoin. unfold padded_row. rewrite Hrows. cbn [concat].
  rewrite app_nil_r, <- Hlen. apply take_app_length.
Qed.

Lemma frame_item_channels (w : @Tensor2 A) :
  List.length (rows w) <> 1%nat ->
  (240 < shape1 w)%nat ->
  frame_item zero w = Raise RuntimeError.
Proof.
  intros Hc HL. unfold frame_item.
  pose proof (n_frames_bounds (Z.of_nat (shape1 w))) as Hn.
  pose proof (padding_length_nonneg (Z.of_nat (shape1 w))) as Hp.
  cbv zeta in Hn. unfold frame_length, step_length in Hn.
  set (n := n_frames (Z.of_nat (shape1 w))) in *.
  rewrite (F_pad_nonneg zero) by exact Hp. cbn [res_bind].
  destruct (torch_zeros zero n) as [z|e] eqn:Ez.
  2:{ unfold torch_zeros in Ez. destruct (Z.ltb_spec n 0); [lia|discriminate]. }
  apply torch_zeros_length in Ez as [_ Hz]. cbn [res_bind].
  replace (Z.to_nat n) with (S (Z.to_nat (n - 1))) in * by lia.
  cbn [seq fill_frames]. unfold setitem.
  destruct (Nat.ltb_spec 0 (List.length z)); [|lia].
  unfold slice_cols. cbn [rows].
  destruct (rows w) as [|r [|r' rs]]; [reflexivity | | reflexivity].
  cbn in Hc. congruence.
Qed.

End FramerMore.

(** ** The annotation parser *)

Section ParseFacts.
Local Open Scope string_scope.

Lemma prefix_nil (s : string) : String.prefix "" s = true.
Proof. now destruct s. Qed.

Lemma prefix_app (p b : string) : String.prefix p (p +:+ b) = true.
Proof.
  induction p as [|x p IH]; [apply prefix_nil|].
  rewrite append_cons. cbn [String.prefix].
  destruct (ascii_dec x x); [exact IH | congruence].
Qed.

Lemma prefix_head_ne (o c : ascii) (p s : string) :
  Ascii.eqb c o = false -> String.prefix (String o p) (String c s) = false.
Proof.
  intros H. cbn [String.prefix]. destruct (ascii_dec o c) as [->|]; [|reflexivity].
  now rewrite Ascii.eqb_refl in H.
Qed.

Lemma replace_go_pass (o : ascii) (p new a b : string) :
  lacks o a = true ->
  PyStr.replace_go (String o p) new 0 (a +:+ b)
  = a +:+ PyStr.replace_go (String o p) new 0 b.
Proof.
  induction a as [|c a IH]; intros Ha; [reflexivity|].
  cbn [lacks] in Ha. apply andb_prop in Ha as [Hc Ha].
  apply negb_true_iff in Hc.
  rewrite !append_cons. cbn [PyStr.replace_go].
  rewrite (prefix_head_ne o c p _ Hc). now rewrite IH.
Qed.

Lemma replace_go_skip (old new x b : string) :
  PyStr.replace_go old new (String.length x) (x +:+ b)
  = PyStr.replace_go old new 0 b.
Proof.
  induction x as [|c x IH]; [reflexivity|].
  rewrite append_cons. cbn [String.length PyStr.replace_go]. exact IH.
Qed.

Lemma replace_go_hit (o : ascii) (p new b : string) :
  PyStr.replace_go (String o p) new 0 (String o p +:+ b)
  = new +:+ PyStr.replace_go (String o p) new 0 b.
Proof.
  pose proof (prefix_app (String o p) b) as Hp.
  rewrite append_cons in *. cbn [PyStr.replace_go]. rewrite Hp.
  replace (String.length (String o p) - 1)%nat with (String.length p)
    by (cbn [String.length]; lia).
  now rewrite replace_go_skip.
Qed.

Lemma replace_go_end (o : ascii) (p new a : string) :
  lacks o a = true -> PyStr.replace_go (String o p) new 0 a = a.
Proof.
  induction a as [|c a IH]; intros Ha; [reflexivity|].
  cbn [lacks] in Ha. apply andb_prop in Ha as [Hc Ha].
  apply negb_true_iff in Hc. cbn [PyStr.replace_go].
  rewrite (prefix_head_ne o c p _ Hc). now rewrite IH.
Qed.

Lemma split_go_nonempty (sep : string) (s : string) :
  forall k, PyStr.split_go sep k s <> [].
Proof.
  induction s as [|c s IH]; intros k; [discriminate|].
  cbn [PyStr.split_go]. destruct k; [|apply IH].
  destruct (String.prefix sep (String c s)); [discriminate|].
  destruct (PyStr.split_go sep 0 s); discriminate.
Qed.

Lemma split_go_pass (o : ascii) (p a b : string) :
  lacks o a = true ->
  PyStr.split_go (String o p) 0 (a +:+ b)
  = match PyStr.split_go (String o p) 0 b with
    | f :: fs => (a +:+ f) :: fs
    | [] => [a]
    end.
Proof.
  induction a as [|c a IH]; intros Ha.
  - rewrite append_nil.
    pose proof (split_go_nonempty (String o p) b 0).
    now destruct (PyStr.split_go (String o p) 0 b).
  - cbn [lacks] in Ha. apply andb_prop in Ha as [Hc Ha].
    apply negb_true_iff in Hc.
    rewrite !append_cons. cbn [PyStr.split_go].
    rewrite (prefix_head_ne o c p _ Hc), IH by exact Ha.
    destruct (PyStr.split_go (String o p) 0 b); reflexivity.
Qed.

Lemma split_go_skip (sep x b : string) :
  PyStr.split_go sep (String.length x) (x +:+ b) = PyStr.split_go sep 0 b.
Proof.
  induction x as [|c x IH]; [reflexivity|].
  rewrite append_cons. cbn [String.length PyStr.split_go]. exact IH.
Qed.

Lemma split_go_hit (o : ascii) (p b : string) :
  PyStr.split_go (String o p) 0 (String o p +:+ b)
  = "" :: PyStr.split_go (String o p) 0 b.
Proof.
  pose proof (prefix_app (String o p) b) as Hp.
  rewrite append_cons in *. cbn [PyStr.split_go]. rewrite Hp.
  replace (String.length (String o p) - 1)%nat with (String.length p)
    by (cbn [String.length]; lia).
  now rewrite split_go_skip.
Qed.

Lemma split_go_end (o : ascii) (p a : string) :
  lacks o a = true -> PyStr.split_go (String o p) 0 a = [a].
Proof.
  induction a as [|c a IH]; intros Ha; [reflexivity|].
  cbn [lacks] in Ha. apply andb_prop in Ha as [Hc Ha].
  apply negb_true_iff in Hc. cbn [PyStr.split_go].
  rewrite (prefix_head_ne o c p _ Hc), IH by exact Ha. reflexivity.
Qed.

Lemma rstrip_app (a b b' : string) :
  PyStr.rstrip b = b' -> b' <> "" -> PyStr.rstrip (a +:+ b) = a +:+ b'.
Proof.
  intros Hb Hne. induction a as [|c a IH]; [exact Hb|].
  rewrite !append_cons. cbn [PyStr.rstrip]. rewrite IH.
  destruct (a +:+ b') eqn:E; [|reflexivity].
  exfalso. destruct a; [now rewrite append_nil in E | now rewrite append_cons in E].
Qed.

Lemma lacks_app (c : ascii) (a b : string) :
  lacks c (a +:+ b) = lacks c a && lacks c b.
Proof.
  induction a as [|x a IH]; [reflexivity|].
  rewrite append_cons. cbn [lacks]. rewrite IH. now rewrite andb_assoc.
Qed.

(** No [" - "] starts at a blank that is followed by a field without
    blanks and then by something that is not a blank. *)
Lemma prefix_dash_blank (v more : string) :
  lacks " " v = true ->
  String.prefix " " more = false ->
  String.prefix "- " more = false ->
  String.prefix " - " (String " " (v +:+ more)) = false.
Proof.
  intros Hv Hm1 Hm2. cbn [String.prefix].
  destruct (ascii_dec " " " "); [|congruence].
  destruct v as [|x v]; [now rewrite append_nil|].
  rewrite append_cons. cbn [String.prefix].
  destruct (ascii_dec "-" x); [|reflexivity].
  destruct v as [|y v]; [now rewrite append_nil|].
  rewrite append_cons. cbn [String.prefix].
  destruct (ascii_dec " " y) as [<-|]; [|reflexivity].
  cbn in Hv. rewrite andb_false_r in Hv. discriminate.
Qed.

Lemma append_empty_r (a : string) : a +:+ "" = a.
Proof.
  induction a as [|c a IH]; [reflexivity|]. rewrite append_cons. now f_equal.
Qed.

Lemma rstrip_keeps (a b b' : string) :
  PyStr.rstrip b = b' /\ b' <> "" ->
  PyStr.rstrip (a +:+ b) = a +:+ b' /\ a +:+ b' <> "".
Proof.
  intros [Hb Hne]. split; [now apply rstrip_app|].
  now apply append_nonempty_r.
Qed.

Lemma replace_dash_comma (new v more : string) :
  lacks " " v = true ->
  String.prefix " " more = false ->
  String.prefix "- " more = false ->
  PyStr.replace_go " - " new 0 (", " +:+ (v +:+ more))
  = ", " +:+ PyStr.replace_go " - " new 0 (v +:+ more).
Proof.
  intros Hv H1 H2. rewrite !append_cons, !append_nil.
  cbn [PyStr.replace_go].
  rewrite (prefix_head_ne " " "," "- " _ eq_refl).
  now rewrite (prefix_dash_blank v more Hv H1 H2).
Qed.

Lemma replace_dash_comma_end (new v : string) :
  lacks " " v = true ->
  PyStr.replace_go " - " new 0 (", " +:+ v)
  = ", " +:+ PyStr.replace_go " - " new 0 v.
Proof.
  intros Hv. rewrite <- (append_empty_r v) at 1.
  rewrite replace_dash_comma by (exact Hv || reflexivity).
  now rewrite append_empty_r.
Qed.

Lemma clean_field_lacks (s : string) :
  clean_field s = true ->
  lacks "[" s = true /\ lacks "]" s = true /\ lacks (ascii_of_nat 9) s = true
  /\ lacks " " s = true /\ lacks "," s = true.
Proof.
  unfold clean_field. intros H.
  repeat (apply andb_prop in H as [H ?]). tauto.
Qed.

End ParseFacts.

Ltac lacks_side := first [ assumption | reflexivity ].

(** X7: lines 39-44 read a line in the corpus format back into its seven
    fields, whenever no field contains a bracket, a tab, a blank or a
    comma. *)
Theorem fields_of_annotation (t0 t1 fid emo act val dom : string) :
  clean_field t0 = true -> clean_field t1 = true -> clean_field fid = true ->
  clean_field emo = true -> clean_field act = true ->
  clean_field val = true -> clean_field dom = true ->
  fields (annotation t0 t1 fid emo act val dom)
  = [t0; t1; fid; emo; act; val; dom].
Proof.
  intros H0 H1 H2 H3 H4 H5 H6.
  apply clean_field_lacks in H0 as (? & ? & ? & ? & ?).
  apply clean_field_lacks in H1 as (? & ? & ? & ? & ?).
  apply clean_field_lacks in H2 as (? & ? & ? & ? & ?).
  apply clean_field_lacks in H3 as (? & ? & ? & ? & ?).
  apply clean_field_lacks in H4 as (? & ? & ? & ? & ?).
  apply clean_field_lacks in H5 as (? & ? & ? & ? & ?).
  apply clean_field_lacks in H6 as (? & ? & ? & ? & ?).
  unfold fields, annotation, TAB, NL.
  assert (Hstrip :
    forall body : string,
      PyStr.strip ("[" +:+ body) = "[" +:+ PyStr.rstrip body).
  { intros body. unfold PyStr.strip.
    rewrite (append_cons "[" "" body), append_nil.
    cbn [PyStr.lstrip]. change (PyStr.isspace "[") with false. cbv iota.
    cbn [PyStr.rstrip]. destruct (PyStr.rstrip body); reflexivity. }
  rewrite Hstrip. clear Hstrip.
  match goal with
  | |- context [PyStr.rstrip ?b] =>
      assert (Hr : PyStr.rstrip b
                   = t0 +:+ " - " +:+ t1 +:+ "]" +:+ String (ascii_of_nat 9) ""
                     +:+ fid +:+ String (ascii_of_nat 9) "" +:+ "[" +:+ emo
                     +:+ "]" +:+ String (ascii_of_nat 9) "" +:+ "[" +:+ act
                     +:+ ", " +:+ val +:+ ", " +:+ dom +:+ "]")
  end.
  { refine (proj1 (_ : _ /\ t0 +:+ _ <> ""%string)).
    repeat apply rstrip_keeps.
    split; [reflexivity | discriminate]. }
  rewrite Hr. clear Hr.
  cbn [PyStr.replace].
  assert (Ha : PyStr.replace_go "[" "" 0
                 ("[" +:+ t0 +:+ " - " +:+ t1 +:+ "]" +:+ String (ascii_of_nat 9) ""
                  +:+ fid +:+ String (ascii_of_nat 9) "" +:+ "[" +:+ emo
                  +:+ "]" +:+ String (ascii_of_nat 9) "" +:+ "[" +:+ act
                  +:+ ", " +:+ val +:+ ", " +:+ dom +:+ "]")
               = t0 +:+ " - " +:+ t1 +:+ "]" +:+ String (ascii_of_nat 9) ""
                 +:+ fid +:+ String (ascii_of_nat 9) "" +:+ emo
                 +:+ "]" +:+ String (ascii_of_nat 9) "" +:+ act
                 +:+ ", " +:+ val +:+ ", " +:+ dom +:+ "]").
  { repeat first [ rewrite replace_go_hit
                 | rewrite replace_go_pass by lacks_side
                 | rewrite replace_go_end by lacks_side ].
    now rewrite ?append_nil. }
  rewrite Ha. clear Ha.
  assert (Hb : PyStr.replace_go "]" "" 0
                 (t0 +:+ " - " +:+ t1 +:+ "]" +:+ String (ascii_of_nat 9) ""
                  +:+ fid +:+ String (ascii_of_nat 9) "" +:+ emo
                  +:+ "]" +:+ String (ascii_of_nat 9) "" +:+ act
                  +:+ ", " +:+ val +:+ ", " +:+ dom +:+ "]")
               = t0 +:+ " - " +:+ t1 +:+ String (ascii_of_nat 9) ""
                 +:+ fid +:+ String (ascii_of_nat 9) "" +:+ emo
                 +:+ String (ascii_of_nat 9) "" +:+ act
                 +:+ ", " +:+ val +:+ ", " +:+ dom).
  { repeat first [ rewrite replace_go_hit
                 | rewrite replace_go_pass by lacks_side
                 | rewrite replace_go_end by lacks_side ].
    now rewrite ?append_nil, ?append_empty_r. }
  rewrite Hb. clear Hb.
  assert (Hc : PyStr.replace_go " - " (String (ascii_of_nat 9) "") 0
                 (t0 +:+ " - " +:+ t1 +:+ String (ascii_of_nat 9) ""
                  +:+ fid +:+ String (ascii_of_nat 9) "" +:+ emo
                  +:+ String (ascii_of_nat 9) "" +:+ act
                  +:+ ", " +:+ val +:+ ", " +:+ dom)
               = t0 +:+ String (ascii_of_nat 9) "" +:+ t1
                 +:+ String (ascii_of_nat 9) ""
                 +:+ fid +:+ String (ascii_of_nat 9) "" +:+ emo
                 +:+ String (ascii_of_nat 9) "" +:+ act
                 +:+ ", " +:+ val +:+ ", " +:+ dom).
  { repeat first [ rewrite replace_go_hit
                 | rewrite replace_go_pass by lacks_side
                 | rewrite replace_dash_comma by lacks_side
                 | rewrite replace_dash_comma_end by lacks_side
                 | rewrite replace_go_end by lacks_side ].
    reflexivity. }
  rewrite Hc. clear Hc.
  assert (Hd : PyStr.replace_go ", " (String (ascii_of_nat 9) "") 0
                 (t0 +:+ String (ascii_of_nat 9) "" +:+ t1
                  +:+ String (ascii_of_nat 9) ""
                  +:+ fid +:+ String (ascii_of_nat 9) "" +:+ emo
                  +:+ String (ascii_of_nat 9) "" +:+ act
                  +:+ ", " +:+ val +:+ ", " +:+ dom)
               = t0 +:+ String (ascii_of_nat 9) "" +:+ t1
                 +:+ String (ascii_of_nat 9) ""
                 +:+ fid +:+ String (ascii_of_nat 9) "" +:+ emo
                 +:+ String (ascii_of_nat 9) "" +:+ act
                 +:+ String (ascii_of_nat 9) "" +:+ val
                 +:+ String (ascii_of_nat 9) "" +:+ dom).
  { repeat first [ rewrite replace_go_hit
                 | rewrite replace_go_pass by lacks_side
                 | rewrite replace_go_end by lacks_side ].
    reflexivity. }
  rewrite Hd. clear Hd.
  repeat first [ rewrite split_go_hit
               | rewrite split_go_pass by lacks_side
               | rewrite split_go_end by lacks_side ].
  now rewrite ?append_empty_r.
Qed.

(** ** Index construction, continued *)

Section IndexMore.



End IndexMore.


Section IndexMore2.

Lemma row_width_all (data : list (list string)) (k : nat) :
  data <> [] ->
  Forall (fun row => List.length row = k) data ->
  row_width data = k.
Proof.
  intros Hne H. induction H as [|row data Hrow Hall IH]; [congruence|].
  cbn [row_width fold_right]. destruct data as [|row' data].
  - cbn. lia.
  - specialize (IH ltac:(discriminate)). unfold row_width in IH.
    rewrite IH. lia.
Qed.

Lemma cast_column_str (col : list Cell) (i : nat) (x : string) :
  cast_column col !! i = Some (CStr x) -> col !! i = Some (CStr x).
Proof.
  unfold cast_column. destruct (forallb castable col); [|auto].
  rewrite list_lookup_fmap. destruct (col !! i) as [[| |]|]; discriminate.
Qed.

Lemma file_cell_inv (data : list (list string)) (i : nat) (c p : Cell) :
  table_column data 2 !! i = Some c ->
  audio_path_cell c = Ok p ->
  exists row file_id q,
    data !! i = Some row /\ row !! 2%nat = Some file_id
    /\ audio_path file_id = Ok q /\ c = CStr file_id /\ p = CStr q.
Proof.
  intros Hc Hp. destruct c as [file_id| |x]; try discriminate.
  cbn [audio_path_cell] in Hp.
  destruct (audio_path file_id) as [q|e] eqn:Eq; [|discriminate].
  injection Hp as <-.
  unfold table_column in Hc. apply cast_column_str in Hc.
  rewrite column_cells, list_lookup_fmap in Hc.
  destruct (data !! i) as [row|] eqn:Erow; [|discriminate].
  cbn in Hc. destruct (row !! 2%nat) as [f|] eqn:Ef; [|discriminate].
  injection Hc as ->. exists row, file_id, q. auto.
Qed.

Lemma loc_ok_inv (d : DataFrame) (col : DataFrame -> list Cell) (idx : Z)
  (c : Cell) :
  loc d idx col = Ok c ->
  0 <= idx < Z.of_nat (index d) /\ col d !! Z.to_nat idx = Some c.
Proof.
  unfold loc.
  destruct (Z.leb_spec 0 idx), (Z.ltb_spec idx (Z.of_nat (index d)));
    cbn [andb]; try discriminate.
  destruct (col d !! Z.to_nat idx); [|discriminate].
  intros [= <-]. split; [lia | reflexivity].
Qed.

Lemma well_formed_file_column (data : list (list string)) :
  forallb well_formed_row data = true ->
  table_column data 2 = map (fun row => cell_of (row !! 2%nat)) data
  /\ exists paths, res_mapM audio_path_cell (table_column data 2) = Ok paths.
Proof.
  intros Hwf.
  assert (Hcol : table_column data 2
                 = map (fun row => cell_of (row !! 2%nat)) data).
  { unfold table_column, cast_column. rewrite column_cells.
    destruct data as [|row data]; [reflexivity|].
    cbn [forallb] in Hwf. apply andb_prop in Hwf as [Hrow _].
    unfold well_formed_row in Hrow. apply andb_prop in Hrow as [_ Hrow].
    cbn [map forallb]. destruct (row !! 2%nat) as [f|]; [|discriminate].
    apply andb_prop in Hrow as [_ Hf]. apply negb_true_iff in Hf.
    cbn [cell_of castable]. now rewrite Hf. }
  split; [exact Hcol|]. rewrite Hcol. clear Hcol.
  induction data as [|row data IH]; [now exists []|].
  cbn [forallb] in Hwf. apply andb_prop in Hwf as [Hrow Hall].
  destruct (IH Hall) as [paths Hpaths].
  unfold well_formed_row in Hrow. apply andb_prop in Hrow as [_ Hrow].
  cbn [map res_mapM]. destruct (row !! 2%nat) as [f|]; [|discriminate].
  apply andb_prop in Hrow as [Hlen _]. apply Nat.leb_le in Hlen.
  destruct (audio_path_ok f Hlen) as [p Hp].
  cbn [cell_of audio_path_cell]. rewrite Hp. cbn [res_bind].
  rewrite Hpaths. cbn [res_bind]. eauto.
Qed.

End IndexMore2.

(** X9: rows of 7 fields whose file_id has at least 5 characters and is
    not numeric text always give a table (also when there is no row): one
    record per row, in order, with the row's emotion code and the audio
    path derived from the row's file_id. *)
Theorem index_of_well_formed_rows (r : string) (data : list (list string)) :
  forallb well_formed_row data = true ->
  exists ds,
    index_of_rows r data = Ok ds
    /\ root ds = r
    /\ __len__ ds = Z.of_nat (List.length data)
    /\ col_emotion (df ds) = map emotion_code data
    /\ Forall2
         (fun row c => exists file_id p,
                         row !! 2%nat = Some file_id
                         /\ audio_path file_id = Ok p /\ c = CStr p)
         data (col_file (df ds)).
Proof.
  intros Hwf.
  destruct (well_formed_file_column data Hwf) as [Hcol [paths Hpaths]].
  assert (Hpd : pd_DataFrame data
                = Ok (mkDataFrame (List.length data)
                        (table_column data 0) (table_column data 1)
                        (table_column data 2) (table_column data 3)
                        (table_column data 4) (table_column data 5)
                        (table_column data 6))).
  { unfold pd_DataFrame. destruct data as [|row data]; [reflexivity|].
    rewrite (row_width_all (row :: data) 7); [reflexivity | discriminate |].
    apply List.Forall_forall. intros x Hx.
    rewrite forallb_forall in Hwf. specialize (Hwf x Hx).
    unfold well_formed_row in Hwf. apply andb_prop in Hwf as [Hlen _].
    now apply Nat.eqb_eq in Hlen. }
  unfold index_of_rows. rewrite Hpd. cbn [res_bind set_emotion col_file].
  rewrite Hpaths. cbn [res_bind set_file index col_start col_end col_emotion
                        col_activation col_valence col_dominance].
  eexists. split; [reflexivity|]. cbn [root df __len__ index col_emotion col_file].
  split; [reflexivity|]. split; [reflexivity|].
  split; [apply emotion_column|].
  apply res_mapM_Forall2 in Hpaths. rewrite Hcol in Hpaths.
  clear Hcol Hpd Hwf. revert paths Hpaths.
  induction data as [|row data IH]; intros paths Hp; inversion Hp; subst;
    constructor; [|now apply IH].
  destruct (row !! 2%nat) as [f|]; [|discriminate].
  cbn [cell_of audio_path_cell] in *.
  destruct (audio_path f) as [q|e] eqn:Eq; cbn [res_bind] in *;
    [|discriminate].
  match goal with H : Ok (CStr _) = Ok _ |- _ => injection H as <- end.
  now exists f, q.
Qed.

(** X10: whenever [__getitem__] returns a sample for [idx] on a constructed
    dataset, [idx] is not negative and there is a bracketed line number
    [idx]; the sample's path is the root joined with the path derived from
    that line's file_id, its waveform and sample rate are what the loader
    returns for that path, and its emotion is the code of that line's
    label. *)
Theorem getitem_of_line {A : Type}
  (torchaudio_load : string -> res (@Tensor2 A * Z))
  (fs : FileSystem) (r : string) (ds : IemocapDataset) (idx : Z)
  (s : @Sample A) :
  __init__ fs r = Ok ds ->
  __getitem__ torchaudio_load ds idx = Ok s ->
  0 <= idx /\
  exists line file_id p,
    bracketed_lines fs r !! Z.to_nat idx = Some line
    /\ fields line !! 2%nat = Some file_id
    /\ audio_path file_id = Ok p
    /\ path s = os_path_join r [p]
    /\ torchaudio_load (path s) = Ok (waveform s, sample_rate s)
    /\ emotion s = emotion_code (fields line).
Proof.
  intros Hinit Hget.
  apply init_inv in Hinit as (data & _ & Hdata & Hrows).
  apply index_of_rows_inv in Hrows as (paths & _ & Hpaths & ->).
  unfold __getitem__ in Hget. cbn [df root] in Hget.
  destruct (loc _ idx col_file) as [f|e] eqn:Lf; cbn [res_bind] in Hget;
    [|discriminate].
  apply loc_ok_inv in Lf as [Hidx Ef]. cbn [col_file index] in Ef, Hidx.
  apply res_mapM_Forall2 in Hpaths.
  destruct (Forall2_lookup_r _ _ _ _ _ Hpaths Ef) as (c & Ec & Hc).
  destruct (file_cell_inv data _ c f Ec Hc)
    as (row & file_id & q & Erow & Efid & Eq & -> & ->).
  cbn [res_bind] in Hget.
  destruct (torchaudio_load (os_path_join r [q])) as [[w sr]|e] eqn:El;
    cbn [res_bind] in Hget; [|discriminate].
  destruct (loc _ idx col_emotion) as [emo|e] eqn:Le; cbn [res_bind] in Hget;
    [|discriminate].
  apply loc_ok_inv in Le as [_ Ee]. cbn [col_emotion] in Ee.
  rewrite emotion_column, list_lookup_fmap, Erow in Ee. injection Ee as <-.
  destruct (loc _ idx col_activation) as [act|e]; cbn [res_bind] in Hget;
    [|discriminate].
  destruct (loc _ idx col_valence) as [val|e]; cbn [res_bind] in Hget;
    [|discriminate].
  destruct (loc _ idx col_dominance) as [dom|e]; cbn [res_bind] in Hget;
    [|discriminate].
  injection Hget as <-. cbn [path waveform sample_rate emotion fst snd].
  split; [lia|].
  subst data. rewrite list_lookup_fmap in Erow.
  destruct (bracketed_lines fs r !! Z.to_nat idx) as [line|] eqn:Eline;
    [|discriminate].
  injection Erow as <-.
  exists line, file_id, q. repeat split; auto.
Qed.

(** ** Errors of the framer and of the path derivation *)

Section FramerErrors.
Context {A : Type} (zero : A).

Lemma setitem_length (frames frames' : Tensor3 A) (i : nat) (src : @Tensor2 A) :
  setitem frames i src = Ok frames' -> List.length frames' = List.length frames.
Proof.
  unfold setitem. destruct (i <? List.length frames)%nat; [|discriminate].
  destruct (rows src) as [|r [|r' rs]]; try discriminate.
  destruct (shape1 src =? Z.to_nat frame_length)%nat.
  - intros [= <-]. apply length_insert.
  - destruct (shape1 src =? 1)%nat; [|discriminate].
    intros [= <-]. apply length_insert.
Qed.

Lemma setitem_raises (frames : Tensor3 A) (i : nat) (src : @Tensor2 A) (e : exn) :
  (i < List.length frames)%nat ->
  setitem frames i src = Raise e -> e = RuntimeError.
Proof.
  unfold setitem. intros Hi.
  destruct (Nat.ltb_spec i (List.length frames)); [|lia].
  destruct (rows src) as [|r [|r' rs]]; try (now intros [= <-]).
  destruct (shape1 src =? Z.to_nat frame_length)%nat; [discriminate|].
  destruct (shape1 src =? 1)%nat; [discriminate | now intros [= <-]].
Qed.

Lemma fill_frames_raises (padded : @Tensor2 A) (e : exn) (range : list nat) :
  forall frames : Tensor3 A,
    Forall (fun i => (i < List.length frames)%nat) range ->
    fill_frames padded frames range = Raise e -> e = RuntimeError.
Proof.
  induction range as [|i range IH]; intros frames Hr; [discriminate|].
  cbn [fill_frames].
  destruct (setitem frames i _) as [fr1|e1] eqn:E; cbn [res_bind].
  - apply IH. apply setitem_length in E. rewrite E.
    now apply Forall_inv_tail in Hr.
  - intros [= <-]. eapply setitem_raises; [|exact E].
    now apply Forall_inv in Hr.
Qed.

Lemma frame_item_raises (w : @Tensor2 A) (e : exn) :
  frame_item zero w = Raise e -> e = RuntimeError.
Proof.
  unfold frame_item.
  rewrite (F_pad_nonneg zero) by apply padding_length_nonneg. cbn [res_bind].
  destruct (torch_zeros zero _) as [z|e1] eqn:Ez; cbn [res_bind].
  - apply torch_zeros_length in Ez as [_ Hz].
    apply fill_frames_raises. apply List.Forall_forall.
    intros i Hi. apply in_seq in Hi. lia.
  - unfold torch_zeros in Ez. destruct (_ <? 0); [|discriminate].
    injection Ez as <-. now intros [= <-].
Qed.

End FramerErrors.

(** X6: the only exception the framer raises on a batch of 2-D waveforms
    is RuntimeError (a negative frame count or a source that does not
    broadcast); in particular the frame assignment of line 103 never
    indexes out of range. *)
Theorem collate_fn_raises {A : Type} (zero : A) (batch : list (@Sample A))
  (e : exn) :
  collate_fn zero batch = Raise e -> e = RuntimeError.
Proof.
  induction batch as [|s batch IH]; [discriminate|].
  rewrite collate_fn_cons.
  destruct (frame_item zero (waveform s)) as [f|e1] eqn:Ef; cbn [res_bind].
  - destruct (collate_fn zero batch) as [more|e2]; cbn [res_bind];
      [discriminate|].
    intros [= <-]. now apply IH.
  - intros [= <-]. eapply frame_item_raises, Ef.
Qed.

(** X5: a sample whose waveform has more than 240 samples and a number of
    channels other than 1 (none, or two and more) makes the framer raise
    RuntimeError for the whole batch, wherever the sample is in it. *)
Theorem collate_fn_channels {A : Type} (zero : A) (batch : list (@Sample A))
  (s : @Sample A) :
  In s batch ->
  List.length (rows (waveform s)) <> 1%nat ->
  (240 < shape1 (waveform s))%nat ->
  collate_fn zero batch = Raise RuntimeError.
Proof.
  intros Hin Hc HL. induction batch as [|a batch IH]; [destruct Hin|].
  rewrite collate_fn_cons. destruct Hin as [->|Hin].
  - now rewrite (frame_item_channels zero _ Hc HL).
  - destruct (frame_item zero (waveform a)) as [f|e] eqn:Ef; cbn [res_bind].
    + now rewrite (IH Hin).
    + now rewrite (frame_item_raises zero _ _ Ef).
Qed.

(** X11: a file_id that begins with the path separator (and has a
    character at index 4) gives an absolute audio path, the file_id
    followed by [.wav]; joined with any root on line 63 it stays that
    path, so the audio is looked up outside the dataset root. *)
Theorem audio_path_absolute (file_id : string) (c : ascii) (r : string) :
  String.get 4 file_id = Some c ->
  PyStr.startswith file_id "/" = true ->
  audio_path file_id = Ok (file_id +:+ ".wav")
  /\ os_path_join r [file_id +:+ ".wav"] = file_id +:+ ".wav".
Proof.
  intros Hget Hs.
  assert (Hne : file_id <> EmptyString) by (intros ->; discriminate Hget).
  assert (Hw : PyStr.startswith (file_id +:+ ".wav") "/" = true).
  { now rewrite startswith_sep_app. }
  split.
  - unfold audio_path, PyStr.getitem. rewrite Hget. cbn [res_bind].
    unfold os_path_join, _ext_audio. cbn [join_go]. now rewrite Hw.
  - unfold os_path_join. cbn [join_go]. now rewrite Hw.
Qed.

Section ShortId.

Lemma res_mapM_raise {X Y} (f : X -> res Y) (e : exn) (xs : list X) :
  Forall (fun x => is_ok (f x) = true \/ f x = Raise e) xs ->
  Exists (fun x => f x = Raise e) xs ->
  res_mapM f xs = Raise e.
Proof.
  induction xs as [|x xs IH]; intros Hall Hex; [inversion Hex|].
  cbn [res_mapM]. pose proof (Forall_inv Hall) as Hx.
  apply Forall_inv_tail in Hall.
  destruct (f x) as [y|e1] eqn:Ey; cbn [res_bind].
  - inversion Hex as [? ? H|? ? H]; subst; [congruence|].
    now rewrite (IH Hall H).
  - cbv beta in Hx. rewrite Ey in Hx. destruct Hx as [Hx|Hx]; [cbn in Hx; discriminate Hx | congruence].
Qed.

Lemma audio_path_cases (file_id : string) :
  is_ok (audio_path file_id) = true \/ audio_path file_id = Raise IndexError.
Proof.
  unfold audio_path, PyStr.getitem.
  destruct (String.get 4 file_id); [now left | now right].
Qed.

Lemma get_out_of_range (s : string) (i : nat) :
  (String.length s <= i)%nat -> String.get i s = None.
Proof.
  revert i. induction s as [|x s IH]; intros i Hi; [reflexivity|].
  cbn in Hi. destruct i; [lia|]. cbn [String.get]. apply IH. lia.
Qed.

End ShortId.

(** X12: when every row has 7 fields, a row whose file_id has fewer than 5
    characters (and is not numeric text) makes line 54 raise IndexError:
    no table is built. *)
Theorem index_of_rows_short_file_id (r : string) (data : list (list string))
  (i : nat) (row : list string) (file_id : string) :
  Forall (fun row' => List.length row' = 7%nat) data ->
  data !! i = Some row ->
  row !! 2%nat = Some file_id ->
  (String.length file_id < 5)%nat ->
  FloatText.is_float file_id = false ->
  index_of_rows r data = Raise IndexError.
Proof.
  intros Hall Hrow Hfid Hlen Hfloat.
  assert (Hne : data <> []) by (intros ->; discriminate).
  unfold index_of_rows, pd_DataFrame.
  destruct data as [|row0 data0] eqn:Edata; [congruence|].
  rewrite <- Edata in *. clear Hne.
  rewrite (row_width_all data 7); [|subst; discriminate|exact Hall].
  cbn [Nat.eqb res_bind set_emotion col_file].
  assert (Hcol : table_column data 2
                 = map (fun row' => cell_of (row' !! 2%nat)) data).
  { unfold table_column, cast_column. rewrite column_cells.
    replace (forallb castable _) with false; [reflexivity|].
    symmetry. apply not_true_is_false. intros Hc.
    rewrite forallb_forall in Hc.
    specialize (Hc (CStr file_id)). cbn [castable] in Hc.
    rewrite Hfloat in Hc. enough (false = true) by discriminate.
    apply Hc. apply in_map_iff. exists row. rewrite Hfid. split; [reflexivity|].
    apply list_elem_of_In. eapply list_elem_of_lookup_2, Hrow. }
  rewrite Hcol.
  rewrite (res_mapM_raise audio_path_cell IndexError); [reflexivity| |].
  - apply List.Forall_forall. intros c Hc. apply in_map_iff in Hc as (row' & <- & Hin).
    rewrite List.Forall_forall in Hall. specialize (Hall row' Hin).
    destruct (row' !! 2%nat) as [f|] eqn:Ef.
    + cbn [cell_of audio_path_cell].
      destruct (audio_path_cases f) as [H|H].
      * left. destruct (audio_path f); [reflexivity | discriminate].
      * right. now rewrite H.
    + apply lookup_ge_None_1 in Ef. lia.
  - apply List.Exists_exists. exists (CStr file_id). split.
    + apply in_map_iff. exists row. rewrite Hfid. split; [reflexivity|].
      apply list_elem_of_In. eapply list_elem_of_lookup_2, Hrow.
    + cbn [audio_path_cell]. unfold audio_path, PyStr.getitem.
      now rewrite (get_out_of_range file_id 4) by lia.
Qed.

(** ** Examples of the further properties *)

(** The demo sample (561 samples): its 3 frames have the shape (1, 400). *)
Lemma collate_fn_frame_shape_witness :
  exists frames,
    collate_fn 0 [demo_sample] = Ok frames
    /\ List.length frames = 3%nat
    /\ Forall frame_shape frames.
Proof.
  destruct (collate_fn 0 [demo_sample]) as [frames|e] eqn:E.
  2:{ vm_compute in E. discriminate. }
  exists frames. split; [reflexivity|]. split.
  - vm_compute in E. injection E as <-. reflexivity.
  - apply (collate_fn_frame_shape 0 [demo_sample] frames); [|exact E].
    repeat constructor.
Defined.

Lemma demo_sample_long : long_mono demo_sample.
Proof.
  exists (map Z.of_nat (seq 0 561)).
  split; [reflexivity|]. split; [reflexivity|]. cbn. lia.
Qed.

(** Two demo samples: 3 + 3 frames. *)
Lemma collate_fn_long_batch_witness :
  Forall long_mono [demo_sample; demo_sample]
  /\ collate_fn 0 [demo_sample; demo_sample]
     = Ok (sample_frames 0 demo_sample ++ sample_frames 0 demo_sample)
  /\ frame_total [demo_sample; demo_sample] = 6.
Proof.
  assert (H : Forall long_mono [demo_sample; demo_sample]).
  { repeat constructor; apply demo_sample_long. }
  split; [exact H|].
  destruct (collate_fn_long_batch 0 [demo_sample; demo_sample] H) as [Hc _].
  split; [|reflexivity].
  rewrite Hc. cbn [flat_map]. now rewrite app_nil_r.
Defined.

(** The demo sample is recovered from its frames. *)
Lemma overlap_join_collate_fn_witness :
  exists frames,
    collate_fn 0 [demo_sample] = Ok frames
    /\ take 561 (overlap_join frames) = map Z.of_nat (seq 0 561).
Proof.
  destruct (collate_fn 0 [demo_sample]) as [frames|e] eqn:E.
  2:{ vm_compute in E. discriminate. }
  exists frames. split; [reflexivity|].
  apply (overlap_join_collate_fn 0 demo_sample (map Z.of_nat (seq 0 561)) frames);
    [reflexivity | reflexivity | cbn; lia | exact E].
Defined.

(** A two-channel sample after a good one. *)
Lemma collate_fn_channels_witness :
  collate_fn 0 [demo_sample; stereo_sample] = Raise RuntimeError.
Proof.
  apply (collate_fn_channels 0 [demo_sample; stereo_sample] stereo_sample).
  - right. left. reflexivity.
  - cbn. lia.
  - cbn. lia.
Defined.

(** The empty waveform: the exception is RuntimeError. *)
Lemma collate_fn_raises_witness :
  exists e, collate_fn 0 [sample_of (mono_waveform [])] = Raise e
            /\ e = RuntimeError.
Proof.
  destruct (collate_fn 0 [sample_of (mono_waveform [])]) as [frames|e] eqn:E.
  1:{ vm_compute in E. discriminate. }
  exists e. split; [reflexivity|].
  exact (collate_fn_raises 0 [sample_of (mono_waveform [])] e E).
Defined.

(** The first record of the small corpus. *)
Lemma fields_of_annotation_witness :
  fields (annotation "6.2901" "8.2357" "Ses01F_impro01_F000" "neu"
            "2.5000" "2.5000" "2.5000")
  = ["6.2901"; "8.2357"; "Ses01F_impro01_F000"; "neu";
     "2.5000"; "2.5000"; "2.5000"]%string.
Proof.
  apply fields_of_annotation; reflexivity.
Defined.

(** The rows of the small corpus. *)
Lemma index_of_well_formed_rows_witness :
  forallb well_formed_row (map fields (bracketed_lines demo_fs "IEMOCAP"))
  = true
  /\ exists ds,
       index_of_rows "IEMOCAP" (map fields (bracketed_lines demo_fs "IEMOCAP"))
       = Ok ds
       /\ __len__ ds = 3.
Proof.
  split; [reflexivity|].
  destruct (index_of_well_formed_rows "IEMOCAP"
              (map fields (bracketed_lines demo_fs "IEMOCAP")) eq_refl)
    as (ds & Hds & _ & Hlen & _).
  exists ds. split; [exact Hds|]. rewrite Hlen. reflexivity.
Defined.

(** Index 1 of the small corpus: the second bracketed line. *)
Lemma getitem_of_line_witness :
  exists ds s,
    __init__ demo_fs "IEMOCAP" = Ok ds
    /\ __getitem__ demo_load ds 1 = Ok s
    /\ exists line,
         bracketed_lines demo_fs "IEMOCAP" !! 1%nat = Some line
         /\ emotion s = emotion_code (fields line).
Proof.
  destruct (__init__ demo_fs "IEMOCAP") as [ds|e] eqn:E.
  2:{ vm_compute in E. discriminate. }
  destruct (__getitem__ demo_load ds 1) as [s|e] eqn:G.
  2:{ vm_compute in E. injection E as <-. vm_compute in G. discriminate. }
  exists ds, s. split; [reflexivity|]. split; [exact G|].
  destruct (getitem_of_line demo_load demo_fs "IEMOCAP" ds 1 s E G)
    as (_ & line & _ & _ & Hline & _ & _ & _ & _ & Hemo).
  exists line. split; [exact Hline | exact Hemo].
Defined.

(** A file_id that is an absolute path. *)
Lemma audio_path_absolute_witness :
  audio_path "/data/clip" = Ok "/data/clip.wav"%string
  /\ os_path_join "IEMOCAP" ["/data/clip.wav"%string] = "/data/clip.wav"%string.
Proof.
  apply (audio_path_absolute "/data/clip" "a" "IEMOCAP"); reflexivity.
Defined.

(** A record whose file_id is [abc]. *)
Lemma index_of_rows_short_file_id_witness :
  index_of_rows "IEMOCAP"
    [["6.2901"; "8.2357"; "abc"; "neu"; "2.5000"; "2.5000"; "2.5000"]%string]
  = Raise IndexError.
Proof.
  apply (index_of_rows_short_file_id "IEMOCAP" _ 0
           ["6.2901"; "8.2357"; "abc"; "neu"; "2.5000"; "2.5000"; "2.5000"]%string
           "abc").
  - repeat constructor.
  - reflexivity.
  - reflexivity.
  - cbn. lia.
  - reflexivity.
Defined.
